(** * device-parser: the lookup resolution engine of package [devicemodel]

    A shallow embedding of the Go package [devicemodel] (the package file
    with [Lookup], [LookupDetailed] and [LookupWithPlatform], and the older
    copy kept in [devicemodel/lookup.go]) together with the properties its
    specification states about it.

    Go strings are byte sequences: they are modelled as [string], whose
    characters are the bytes.  A Go [map[string]string] is a [gmap string
    string]; reading a missing key yields the zero value [""]. *)

From Stdlib Require Import NArith Ascii String List Bool Lia.
From stdpp Require Import gmap strings list fin_maps.

Local Open Scope string_scope.
Set Warnings "-register-all".

(** ** The parts of Go's [strings] package the program calls *)

Module GoStrings.

Definition byte_is (c : ascii) (n : N) : bool := (N_of_ascii c =? n)%N.

Definition byte_in (c : ascii) (lo hi : N) : bool :=
  ((lo <=? N_of_ascii c) && (N_of_ascii c <=? hi))%N.

(** [unicode.IsSpace] on the runes that are one byte long:
    ['\t'], ['\n'], ['\v'], ['\f'], ['\r'] and [' ']. *)
Definition space1 (c : ascii) : bool :=
  byte_in c 9 13 || byte_is c 32.

(** [unicode.IsSpace] on two-byte runes: U+0085 (C2 85), U+00A0 (C2 A0). *)
Definition space2 (c d : ascii) : bool :=
  byte_is c 0xC2 && (byte_is d 0x85 || byte_is d 0xA0).

(** [unicode.IsSpace] on three-byte runes: U+1680 (E1 9A 80),
    U+2000..U+200A (E2 80 80..8A), U+2028, U+2029, U+202F (E2 80 A8, A9,
    AF), U+205F (E2 81 9F) and U+3000 (E3 80 80).  No white space rune is
    four bytes long. *)
Definition space3 (c d e : ascii) : bool :=
  byte_is c 0xE1 && byte_is d 0x9A && byte_is e 0x80
  || byte_is c 0xE2 && byte_is d 0x80
     && (byte_in e 0x80 0x8A || byte_is e 0xA8 || byte_is e 0xA9
         || byte_is e 0xAF)
  || byte_is c 0xE2 && byte_is d 0x81 && byte_is e 0x9F
  || byte_is c 0xE3 && byte_is d 0x80 && byte_is e 0x80.

(** Dropping the runes accepted by a test from the front of a byte
    sequence, the way [strings.TrimLeftFunc] does: the test is given per
    encoded length.  A byte that starts no accepted rune stops the scan
    (an invalid encoding decodes to U+FFFD, which is no white space). *)
Section Trim.
Variable p1 : ascii -> bool.
Variable p2 : ascii -> ascii -> bool.
Variable p3 : ascii -> ascii -> ascii -> bool.

Fixpoint trimFront (s : list ascii) : list ascii :=
  match s with
  | [] => []
  | c :: s1 =>
      if p1 c then trimFront s1 else
      match s1 with
      | [] => s
      | d :: s2 =>
          if p2 c d then trimFront s2 else
          match s2 with
          | [] => s
          | e :: s3 => if p3 c d e then trimFront s3 else s
          end
      end
  end.

(** Does the sequence start with an accepted rune? *)
Definition starts (s : list ascii) : bool :=
  match s with
  | [] => false
  | c :: s1 =>
      p1 c ||
      match s1 with
      | [] => false
      | d :: s2 =>
          p2 c d ||
          match s2 with
          | [] => false
          | e :: _ => p3 c d e
          end
      end
  end.
End Trim.

Definition trimLeftSpace : list ascii -> list ascii :=
  trimFront space1 space2 space3.

(** [strings.TrimRightFunc] decodes the last rune backwards; on the
    reversed sequence this is the front scan with the bytes of each rune
    in reverse order. *)
Definition trimRightSpace (s : list ascii) : list ascii :=
  rev (trimFront space1 (fun c d => space2 d c)
                 (fun c d e => space3 e d c) (rev s)).

(** [strings.TrimSpace]. *)
Definition TrimSpace (s : string) : string :=
  string_of_list_ascii
    (trimRightSpace (trimLeftSpace (list_ascii_of_string s))).

(** [strings.HasPrefix(s, prefix)]. *)
Definition HasPrefix (s prefix : string) : bool := String.prefix prefix s.

Definition isASCII (s : string) : bool :=
  forallb (fun c => (N_of_ascii c <? 128)%N) (list_ascii_of_string s).

Definition lowerByte (c : ascii) : ascii :=
  if byte_in c 65 90 then ascii_of_N (N_of_ascii c + 32) else c.

(** [strings.ToLower]: a string of ASCII bytes is lowered byte by byte;
    any other string goes through [strings.Map(unicode.ToLower, s)], whose
    Unicode case tables are not part of this program and are taken as the
    parameter [unicodeLower]. *)
Definition ToLower (unicodeLower : string -> string) (s : string) : string :=
  if isASCII s
  then string_of_list_ascii (map lowerByte (list_ascii_of_string s))
  else unicodeLower s.

End GoStrings.

Import GoStrings.

(** ** JSON documents and [encoding/json]

    The bytes of an embedded file matter to the program only through what
    [json.Unmarshal] makes of them, so a file's content is modelled as what
    the JSON scanner sees in it: either no valid JSON text, or one JSON
    value.  The same tree stands for the dynamic Go value that
    [json.Unmarshal] stores in an [any] ([string], [float64], [bool], [nil],
    [[]any], [map[string]any]). *)

Module Json.

Inductive value : Type :=
| Null
| Bool (b : bool)
| Number (f : option N)
    (* the float64 bits; [None] for a literal strconv.ParseFloat rejects
       as out of range *)
| Str (s : string)
| Array (items : list value)
| Object (members : list (string * value)). (* in document order *)

(** The content of a file as the JSON scanner classifies it. *)
Inductive bytes : Type :=
| NotJSON                 (* the scanner reports a syntax error *)
| JSON (v : value).

(** Decoding into an [any] fails only on a number outside float64. *)
Fixpoint numbersFit (v : value) : bool :=
  match v with
  | Number None => false
  | Array items => forallb numbersFit items
  | Object members => forallb (fun kv => numbersFit (snd kv)) members
  | _ => true
  end.

(** [json.Unmarshal(b, &raw)] for [var raw map[string]any]: [None] when
    it returns an error, else the map it leaves in [raw] (a JSON [null]
    leaves the nil map, which ranges like the empty one; of two members
    with one key the later wins). *)
Definition UnmarshalMap (b : bytes) : option (gmap string value) :=
  match b with
  | NotJSON => None
  | JSON Null => Some ∅
  | JSON (Object members) =>
      if forallb (fun kv => numbersFit (snd kv)) members
      then Some (foldl (fun raw kv => <[fst kv := snd kv]> raw) ∅ members)
      else None
  | JSON _ => None
  end.

End Json.

(** ** Package state and the loader

    This part of the program is the same text in both copies of the
    package. *)

Definition PlatformIOS := "ios".
Definition PlatformIPADOS := "ipados".
Definition PlatformMACOS := "macos".
Definition PlatformTVOS := "tvos".
Definition PlatformWatchOS := "watchos".
Definition PlatformVisionOS := "visionos".

Record upstreamMeta : Type := {
  UpstreamRepo : string;
  UpstreamRef : string;
  UpstreamSHA : string;
  SyncedAtUTC : string
}.

(** The zero value of [upstreamMeta]. *)
Definition zeroMeta : upstreamMeta :=
  {| UpstreamRepo := ""; UpstreamRef := ""; UpstreamSHA := "";
     SyncedAtUTC := "" |}.

Inductive metaField : Type := FRepo | FRef | FSHA | FSyncedAt.

Definition setField (f : metaField) (s : string) (m : upstreamMeta)
  : upstreamMeta :=
  match f with
  | FRepo => {| UpstreamRepo := s; UpstreamRef := UpstreamRef m;
                UpstreamSHA := UpstreamSHA m; SyncedAtUTC := SyncedAtUTC m |}
  | FRef => {| UpstreamRepo := UpstreamRepo m; UpstreamRef := s;
               UpstreamSHA := UpstreamSHA m; SyncedAtUTC := SyncedAtUTC m |}
  | FSHA => {| UpstreamRepo := UpstreamRepo m; UpstreamRef := UpstreamRef m;
               UpstreamSHA := s; SyncedAtUTC := SyncedAtUTC m |}
  | FSyncedAt => {| UpstreamRepo := UpstreamRepo m;
                    UpstreamRef := UpstreamRef m;
                    UpstreamSHA := UpstreamSHA m; SyncedAtUTC := s |}
  end.

(** The package-level variables. [loadOnce] records whether the
    [sync.Once] has run its function; a nil map reads like the empty one. *)
Record state : Type := {
  loadOnce : bool;
  iosMap : gmap string string;
  macosMap : gmap string string;
  tvosMap : gmap string string;
  watchosMap : gmap string string;
  visionosMap : gmap string string;
  meta : upstreamMeta
}.

(** The variables when the process starts. *)
Definition initial : state :=
  {| loadOnce := false; iosMap := ∅; macosMap := ∅; tvosMap := ∅;
     watchosMap := ∅; visionosMap := ∅; meta := zeroMeta |}.

(** [m[code]] on a Go map: the zero value when the key is missing. *)
Definition index (m : gmap string string) (code : string) : string :=
  default "" (m !! code).

Section Loader.

(** [embeddedData.ReadFile]: the embedded files are not part of the
    sources; [None] is a read error. *)
Variable embeddedData : string -> option Json.bytes.

(** How [encoding/json] matches an object key that is not literally a
    field's tag (its case folding follows the Unicode tables). *)
Variable foldedField : string -> option metaField.

Definition fieldOfKey (key : string) : option metaField :=
  if String.eqb key "upstream_repo" then Some FRepo
  else if String.eqb key "upstream_ref" then Some FRef
  else if String.eqb key "upstream_sha" then Some FSHA
  else if String.eqb key "synced_at_utc" then Some FSyncedAt
  else foldedField key.

(** Decoding one object member into the struct: a string is stored, a
    [null] leaves the field, anything else is a type error that is
    recorded while decoding goes on with the next member. *)
Definition storeMember (acc : upstreamMeta * bool)
    (kv : string * Json.value) : upstreamMeta * bool :=
  match fieldOfKey (fst kv) with
  | None => acc
  | Some f =>
      match snd kv with
      | Json.Str s => (setField f s (fst acc), snd acc)
      | Json.Null => acc
      | _ => (fst acc, true)
      end
  end.

(** [json.Unmarshal(b, &out)] for [out upstreamMeta]: the struct it
    leaves in [out] and whether it returns an error.  Bytes that are no
    JSON text are rejected before anything is stored.  A value that does
    not fit its target is skipped, decoding completes as best it can, and
    the earliest such mismatch is returned as the error (the package
    documentation of [Unmarshal]). *)
Definition UnmarshalMeta (b : Json.bytes) (out : upstreamMeta)
  : upstreamMeta * bool :=
  match b with
  | Json.NotJSON => (out, true)
  | Json.JSON Json.Null => (out, false)
  | Json.JSON (Json.Object members) => foldl storeMember (out, false) members
  | Json.JSON _ => (out, true)
  end.

Fixpoint firstString (typed : list Json.value) : string :=
  match typed with
  | [] => ""
  | item :: rest =>
      match item with
      | Json.Str s =>
          let s := TrimSpace s in
          if negb (String.eqb s "") then s else firstString rest
      | _ => firstString rest
      end
  end.

Definition firstModelName (value : Json.value) : string :=
  match value with
  | Json.Str typed => TrimSpace typed
  | Json.Array typed => firstString typed
  | _ => ""
  end.

(** The loop of [readDeviceMap] over the decoded document. *)
Definition collect (raw : gmap string Json.value) : gmap string string :=
  map_fold
    (fun key value out =>
       let modelName := firstModelName value in
       if negb (String.eqb modelName "") then <[key := modelName]> out
       else out)
    ∅ raw.

Definition readDeviceMap (path : string) : gmap string string :=
  let out : gmap string string := ∅ in
  match embeddedData path with
  | None => out
  | Some b =>
      match Json.UnmarshalMap b with
      | None => out
      | Some raw => collect raw
      end
  end.

Definition readUpstreamMeta (path : string) : upstreamMeta :=
  let out := zeroMeta in
  match embeddedData path with
  | None => out
  | Some b => fst (UnmarshalMeta b out)
  end.

(** [loadOnce.Do(func() { ... })] on one thread of control. *)
Definition loadAll (st : state) : state :=
  if loadOnce st then st
  else
    {| loadOnce := true;
       iosMap := readDeviceMap "data/ios-device-identifiers.json";
       macosMap := readDeviceMap "data/mac-device-identifiers.json";
       tvosMap := readDeviceMap "data/tvos-device-identifiers.json";
       watchosMap := readDeviceMap "data/watchos-device-identifiers.json";
       visionosMap := readDeviceMap "data/visionos-device-identifiers.json";
       meta := readUpstreamMeta "data/UPSTREAM.json" |}.

End Loader.

(** ** The lookup engine (the package file with [LookupDetailed]) *)

Record LookupDetail : Type := {
  Platform : string;
  Name : string
}.

(** [LookupDetail{}]. *)
Definition noDetail : LookupDetail := {| Platform := ""; Name := "" |}.

Module Engine.
Section Engine.

Variable unicodeLower : string -> string.
Variable embeddedData : string -> option Json.bytes.
Variable foldedField : string -> option metaField.

Definition normalizePlatform (platform : string) : string :=
  let platform := TrimSpace (ToLower unicodeLower platform) in
  platform.

(** Reads the package variables; its callers have run [loadAll]. *)
Definition lookupByPrefixDetailed (st : state) (code : string)
  : LookupDetail :=
  if HasPrefix code "iPhone" || HasPrefix code "iPod" then
    {| Platform := PlatformIOS; Name := index (iosMap st) code |}
  else if HasPrefix code "iPad" then
    {| Platform := PlatformIPADOS; Name := index (iosMap st) code |}
  else if HasPrefix code "Watch" then
    {| Platform := PlatformWatchOS; Name := index (watchosMap st) code |}
  else if HasPrefix code "AppleTV" then
    {| Platform := PlatformTVOS; Name := index (tvosMap st) code |}
  else if HasPrefix code "RealityDevice" then
    {| Platform := PlatformVisionOS; Name := index (visionosMap st) code |}
  else if HasPrefix code "iMac" || HasPrefix code "Mac" then
    {| Platform := PlatformMACOS; Name := index (macosMap st) code |}
  else noDetail.

(** The body of [LookupDetailed] after [loadAll()]. *)
Definition lookupDetailedLoaded (st : state) (code : string)
  : LookupDetail :=
  let code := TrimSpace code in
  if String.eqb code "" then noDetail else
  let detail := lookupByPrefixDetailed st code in
  if negb (String.eqb (Name detail) "") then detail else
  let name := index (iosMap st) code in
  if negb (String.eqb name "") then
    {| Platform := PlatformIOS; Name := name |} else
  let name := index (macosMap st) code in
  if negb (String.eqb name "") then
    {| Platform := PlatformMACOS; Name := name |} else
  let name := index (tvosMap st) code in
  if negb (String.eqb name "") then
    {| Platform := PlatformTVOS; Name := name |} else
  let name := index (watchosMap st) code in
  if negb (String.eqb name "") then
    {| Platform := PlatformWatchOS; Name := name |} else
  let name := index (visionosMap st) code in
  if negb (String.eqb name "") then
    {| Platform := PlatformVisionOS; Name := name |} else
  noDetail.

(** The exported functions take the package state and return it with
    their result. *)
Definition LookupDetailed (code : string) (st : state)
  : LookupDetail * state :=
  let st := loadAll embeddedData foldedField st in
  (lookupDetailedLoaded st code, st).

Definition Lookup (code : string) (st : state) : string * state :=
  let (detail, st) := LookupDetailed code st in
  (Name detail, st).

Definition LookupWithPlatform (platform code : string) (st : state)
  : string * state :=
  let st := loadAll embeddedData foldedField st in
  let code := TrimSpace code in
  if String.eqb code "" then ("", st) else
  let platform := normalizePlatform platform in
  if String.eqb platform "" then Lookup code st else
  if String.eqb platform PlatformIOS then (index (iosMap st) code, st)
  else if String.eqb platform PlatformIPADOS then
    (index (iosMap st) code, st)
  else if String.eqb platform PlatformMACOS then
    (index (macosMap st) code, st)
  else if String.eqb platform PlatformTVOS then
    (index (tvosMap st) code, st)
  else if String.eqb platform PlatformWatchOS then
    (index (watchosMap st) code, st)
  else if String.eqb platform PlatformVisionOS then
    (index (visionosMap st) code, st)
  else ("", st).

Definition DataVersion (st : state) : (string * string * string) * state :=
  let st := loadAll embeddedData foldedField st in
  ((UpstreamRepo (meta st),
    UpstreamRef (meta st) ++ " sha:" ++ UpstreamSHA (meta st),
    SyncedAtUTC (meta st)), st).

(** The states the package variables can take: the exported functions
    are the only code that writes them. *)
Inductive reachable : state -> Prop :=
| reach_initial : reachable initial
| reach_Lookup code st :
    reachable st -> reachable (snd (Lookup code st))
| reach_LookupDetailed code st :
    reachable st -> reachable (snd (LookupDetailed code st))
| reach_LookupWithPlatform platform code st :
    reachable st -> reachable (snd (LookupWithPlatform platform code st))
| reach_DataVersion st :
    reachable st -> reachable (snd (DataVersion st)).

End Engine.
End Engine.

(** ** The older copy of the package, [devicemodel/lookup.go]

    It has neither [LookupDetailed] nor the prefix classifier: its
    [Lookup] is the phone table, and an empty platform means the phone
    platform. *)

Module Devicemodel.
Section Devicemodel.

Variable unicodeLower : string -> string.
Variable embeddedData : string -> option Json.bytes.
Variable foldedField : string -> option metaField.

Definition normalizePlatform (platform : string) : string :=
  let platform := TrimSpace (ToLower unicodeLower platform) in
  if String.eqb platform "" then PlatformIOS else platform.

Definition LookupWithPlatform (platform code : string) (st : state)
  : string * state :=
  let st := loadAll embeddedData foldedField st in
  let code := TrimSpace code in
  if String.eqb code "" then ("", st) else
  let platform := normalizePlatform platform in
  if String.eqb platform PlatformIOS then (index (iosMap st) code, st)
  else if String.eqb platform PlatformIPADOS then
    (index (iosMap st) code, st)
  else if String.eqb platform PlatformMACOS then
    (index (macosMap st) code, st)
  else if String.eqb platform PlatformTVOS then
    (index (tvosMap st) code, st)
  else if String.eqb platform PlatformWatchOS then
    (index (watchosMap st) code, st)
  else if String.eqb platform PlatformVisionOS then
    (index (visionosMap st) code, st)
  else ("", st).

Definition Lookup (code : string) (st : state) : string * state :=
  LookupWithPlatform PlatformIOS code st.

End Devicemodel.
End Devicemodel.

(** * The specification's vocabulary *)

(** A token made of ASCII white space only. *)
Definition blank (s : string) : bool :=
  forallb space1 (list_ascii_of_string s).


(** The specification's reading of an entry's value: its candidates are
    the string itself, or the strings of the sequence in their order, each
    trimmed; the resolved name is the first candidate that is not empty. *)
Definition nonEmpty (s : string) : bool := negb (String.eqb s "").

Definition trimmedString (item : Json.value) : option string :=
  match item with
  | Json.Str s => Some (TrimSpace s)
  | _ => None
  end.

Definition candidates (value : Json.value) : list string :=
  match value with
  | Json.Str s => [TrimSpace s]
  | Json.Array items => omap trimmedString items
  | _ => []
  end.

Definition resolvedName (value : Json.value) : option string :=
  find nonEmpty (candidates value).

(** A table without empty names: a key is present exactly when reading it
    gives a non-empty string. *)
Definition namesNonEmpty (m : gmap string string) : Prop :=
  forall key, m !! key <> Some "".

(** The tables of a state hold no empty name. *)
Definition tablesNonEmpty (st : state) : Prop :=
  namesNonEmpty (iosMap st) /\ namesNonEmpty (macosMap st) /\
  namesNonEmpty (tvosMap st) /\ namesNonEmpty (watchosMap st) /\
  namesNonEmpty (visionosMap st).


(** The specification's classifier: an ordered table of rules, each with
    its literal prefixes, its family tag and the table that backs it; the
    first rule with a matching prefix decides. *)
Record rule : Type := {
  prefixes : list string;
  tag : string;
  backing : gmap string string
}.

Definition prefixRules (st : state) : list rule :=
  [ {| prefixes := ["iPhone"; "iPod"]; tag := PlatformIOS;
       backing := iosMap st |};
    {| prefixes := ["iPad"]; tag := PlatformIPADOS; backing := iosMap st |};
    {| prefixes := ["Watch"]; tag := PlatformWatchOS;
       backing := watchosMap st |};
    {| prefixes := ["AppleTV"]; tag := PlatformTVOS;
       backing := tvosMap st |};
    {| prefixes := ["RealityDevice"]; tag := PlatformVisionOS;
       backing := visionosMap st |};
    {| prefixes := ["iMac"; "Mac"]; tag := PlatformMACOS;
       backing := macosMap st |} ].

Definition matches (identifier : string) (r : rule) : bool :=
  existsb (HasPrefix identifier) (prefixes r).

Definition classify (st : state) (identifier : string) : LookupDetail :=
  match find (matches identifier) (prefixRules st) with
  | Some r => {| Platform := tag r; Name := index (backing r) identifier |}
  | None => noDetail
  end.

(** No literal prefix of the classifier matches. *)
Definition unprefixed (identifier : string) : bool :=
  negb (existsb (HasPrefix identifier)
          ["iPhone"; "iPod"; "iPad"; "Watch"; "AppleTV"; "RealityDevice";
           "iMac"; "Mac"]).

(** The specification's fallback order. *)
Definition fallbackOrder (st : state) : list (string * gmap string string) :=
  [ (PlatformIOS, iosMap st); (PlatformMACOS, macosMap st);
    (PlatformTVOS, tvosMap st); (PlatformWatchOS, watchosMap st);
    (PlatformVisionOS, visionosMap st) ].

Definition hasKey (code : string) (family : string * gmap string string)
  : bool :=
  match snd family !! code with
  | Some _ => true
  | None => false
  end.

(** The specification's reference algorithm for the detailed automatic
    lookup, over loaded tables. *)
Definition lookupAutoDetailed (st : state) (identifier : string)
  : LookupDetail :=
  let code := TrimSpace identifier in
  if String.eqb code "" then noDetail else
  let hit := classify st code in
  if nonEmpty (Name hit) then hit else
  match find (hasKey code) (fallbackOrder st) with
  | Some family =>
      {| Platform := fst family; Name := index (snd family) code |}
  | None => noDetail
  end.

Definition lookupAuto (st : state) (identifier : string) : string :=
  Name (lookupAutoDetailed st identifier).

(** The six recognized family tags. *)
Definition recognized (platform : string) : bool :=
  existsb (String.eqb platform)
    [PlatformIOS; PlatformIPADOS; PlatformMACOS; PlatformTVOS;
     PlatformWatchOS; PlatformVisionOS].

(** The product families that have a document of their own. *)
Inductive family : Type := Phone | Desktop | SetTopBox | Wearable | Spatial.

Definition documentPath (f : family) : string :=
  match f with
  | Phone => "data/ios-device-identifiers.json"
  | Desktop => "data/mac-device-identifiers.json"
  | SetTopBox => "data/tvos-device-identifiers.json"
  | Wearable => "data/watchos-device-identifiers.json"
  | Spatial => "data/visionos-device-identifiers.json"
  end.

Definition table (f : family) (st : state) : gmap string string :=
  match f with
  | Phone => iosMap st
  | Desktop => macosMap st
  | SetTopBox => tvosMap st
  | Wearable => watchosMap st
  | Spatial => visionosMap st
  end.

Definition metadataPath : string := "data/UPSTREAM.json".

Definition isObject (v : Json.value) : bool :=
  match v with
  | Json.Object _ => true
  | _ => false
  end.

(** ** Vocabulary of the further properties *)

(** The tag of each family that has a document. *)
Definition familyTag (f : family) : string :=
  match f with
  | Phone => PlatformIOS
  | Desktop => PlatformMACOS
  | SetTopBox => PlatformTVOS
  | Wearable => PlatformWatchOS
  | Spatial => PlatformVisionOS
  end.

(** The table an explicit platform reads, by normalized token. *)
Definition tagTable (platform : string) (st : state)
  : option (gmap string string) :=
  if String.eqb platform PlatformIOS then Some (iosMap st)
  else if String.eqb platform PlatformIPADOS then Some (iosMap st)
  else if String.eqb platform PlatformMACOS then Some (macosMap st)
  else if String.eqb platform PlatformTVOS then Some (tvosMap st)
  else if String.eqb platform PlatformWatchOS then Some (watchosMap st)
  else if String.eqb platform PlatformVisionOS then Some (visionosMap st)
  else None.

Definition getField (f : metaField) (m : upstreamMeta) : string :=
  match f with
  | FRepo => UpstreamRepo m
  | FRef => UpstreamRef m
  | FSHA => UpstreamSHA m
  | FSyncedAt => SyncedAtUTC m
  end.

Definition metaField_eqb (f g : metaField) : bool :=
  match f, g with
  | FRepo, FRepo | FRef, FRef | FSHA, FSHA | FSyncedAt, FSyncedAt => true
  | _, _ => false
  end.

(** The string of the last member of an object that names field [f] and
    carries a string. *)
Fixpoint lastStored (fieldOf : string -> option metaField) (f : metaField)
    (members : list (string * Json.value)) : option string :=
  match members with
  | [] => None
  | member :: rest =>
      match lastStored fieldOf f rest with
      | Some s => Some s
      | None =>
          match fieldOf (fst member), snd member with
          | Some g, Json.Str s => if metaField_eqb g f then Some s else None
          | _, _ => None
          end
      end
  end.

(** The value of the last member of an object with the given key. *)
Fixpoint lastMember (key : string) (members : list (string * Json.value))
  : option Json.value :=
  match members with
  | [] => None
  | member :: rest =>
      match lastMember key rest with
      | Some v => Some v
      | None => if String.eqb (fst member) key then Some (snd member)
                else None
      end
  end.

(** The classifier over any list of rules. *)
Definition classifyWith (rules : list rule) (identifier : string)
  : LookupDetail :=
  match find (matches identifier) rules with
  | Some r => {| Platform := tag r; Name := index (backing r) identifier |}
  | None => noDetail
  end.

(** A string with its ASCII capitals lowered, byte by byte. *)
Definition asciiLower (s : string) : string :=
  string_of_list_ascii (map lowerByte (list_ascii_of_string s)).

(** ** Concrete documents

    A small stand-in for the embedded files, in the shape of the upstream
    documents, for running the definitions. *)

(** A stand-in for the Unicode case tables: it is consulted for strings
    with a byte above 127 only, which the examples do not contain. *)
Definition noUnicode (s : string) : string := s.

Definition noFolding (key : string) : option metaField := None.

Definition sampleData (path : string) : option Json.bytes :=
  if String.eqb path "data/ios-device-identifiers.json" then
    Some (Json.JSON (Json.Object
      [ ("i386", Json.Str "iPhone Simulator");
        ("iPhone18,1", Json.Str "iPhone 17 Pro");
        ("iPad16,3", Json.Str "iPad Pro 11-inch (M4)") ]))
  else if String.eqb path "data/mac-device-identifiers.json" then
    Some (Json.JSON (Json.Object
      [ ("iMac11,2", Json.Str "iMac (21.5-inch, Mid 2010)");
        ("MacBookPro18,3",
         Json.Array [ Json.Str " "; Json.Number (Some 0%N);
                      Json.Str "MacBook Pro (14-inch, 2021) ";
                      Json.Str "MacBook Pro" ]);
        ("Mac0,0", Json.Array [ Json.Str ""; Json.Null ]) ]))
  else if String.eqb path "data/tvos-device-identifiers.json" then
    Some (Json.JSON (Json.Object
      [ ("AppleTV14,1", Json.Str "Apple TV 4K (3rd generation)") ]))
  else if String.eqb path "data/watchos-device-identifiers.json" then
    Some (Json.JSON (Json.Object
      [ ("Watch1,1", Json.Str "Apple Watch (1st generation)") ]))
  else if String.eqb path "data/visionos-device-identifiers.json" then
    Some (Json.JSON (Json.Object
      [ ("RealityDevice14,1", Json.Str "Apple Vision Pro") ]))
  else if String.eqb path "data/UPSTREAM.json" then
    Some (Json.JSON (Json.Object
      [ ("upstream_repo",
         Json.Str "kyle-seongwoo-jun/apple-device-identifiers");
        ("upstream_ref", Json.Str "main");
        ("upstream_sha", Json.Str "0a1b2c3");
        ("synced_at_utc", Json.Str "2026-01-01T00:00:00Z") ]))
  else None.

(** The same files, but the metadata document gives [upstream_ref] a
    number: valid JSON that [json.Unmarshal] reports a type error for. *)
Definition mistypedMeta : Json.bytes :=
  Json.JSON (Json.Object
    [ ("upstream_repo",
       Json.Str "kyle-seongwoo-jun/apple-device-identifiers");
      ("upstream_ref", Json.Number (Some 0%N)) ]).

Definition mistypedMetaData (path : string) : option Json.bytes :=
  if String.eqb path "data/UPSTREAM.json" then Some mistypedMeta
  else sampleData path.

(** The same files, but the phone document has an entry under the empty
    key. *)
Definition emptyKeyData (path : string) : option Json.bytes :=
  if String.eqb path "data/ios-device-identifiers.json" then
    Some (Json.JSON (Json.Object [ ("", Json.Str "Prototype") ]))
  else sampleData path.

(** The same files without the wearable document and with bytes that are
    no JSON as metadata. *)
Definition damagedData (path : string) : option Json.bytes :=
  if String.eqb path "data/watchos-device-identifiers.json" then None
  else if String.eqb path "data/tvos-device-identifiers.json" then
    Some (Json.JSON (Json.Array []))
  else if String.eqb path "data/UPSTREAM.json" then Some Json.NotJSON
  else sampleData path.

(** The desktop document of the sample and the map it decodes to. *)
Definition macDocument : Json.bytes :=
  default Json.NotJSON (sampleData "data/mac-device-identifiers.json").

Definition macRaw : gmap string Json.value :=
  default ∅ (Json.UnmarshalMap macDocument).

(** A phone document that names one key twice, the second time without
    a usable name, and a metadata document that names a field twice. *)
Definition repeatedKeyData (path : string) : option Json.bytes :=
  if String.eqb path "data/ios-device-identifiers.json" then
    Some (Json.JSON (Json.Object
      [ ("iPhone1,1", Json.Str "iPhone");
        ("iPhone1,2", Json.Str "iPhone 3G");
        ("iPhone1,1", Json.Array [ Json.Str " " ]) ]))
  else if String.eqb path "data/UPSTREAM.json" then
    Some (Json.JSON (Json.Object
      [ ("upstream_ref", Json.Str "main");
        ("upstream_ref", Json.Str "v2");
        ("upstream_ref", Json.Null);
        ("upstream_sha", Json.Bool true) ]))
  else sampleData path.

(** The state a process is in after one call. *)
Definition afterOneCall : state :=
  snd (Engine.Lookup sampleData noFolding "Watch1,1" initial).

(** The members of the two documents of [repeatedKeyData]. *)
Definition repeatedMetaMembers : list (string * Json.value) :=
  [ ("upstream_ref", Json.Str "main");
    ("upstream_ref", Json.Str "v2");
    ("upstream_ref", Json.Null);
    ("upstream_sha", Json.Bool true) ].

Definition repeatedKeyMembers : list (string * Json.value) :=
  [ ("iPhone1,1", Json.Str "iPhone");
    ("iPhone1,2", Json.Str "iPhone 3G");
    ("iPhone1,1", Json.Array [ Json.Str " " ]) ].

(** A line feed. *)
Definition lineFeed : string := String (ascii_of_N 10) "".

(** * Properties *)

(** ** Trimming *)

Section TrimFacts.
Variable p1 : ascii -> bool.
Variable p2 : ascii -> ascii -> bool.
Variable p3 : ascii -> ascii -> ascii -> bool.

Local Abbreviation trim := (trimFront p1 p2 p3).
Local Abbreviation lead := (starts p1 p2 p3).

Lemma trimFront_unfold (s : list ascii) :
  trim s =
  if lead s then
    match s with
    | c :: s1 =>
        if p1 c then trim s1 else
        match s1 with
        | d :: s2 => if p2 c d then trim s2 else trim (tl s2)
        | [] => s
        end
    | [] => s
    end
  else s.
Proof.
  destruct s as [|c [|d [|e s3]]]; simpl; try reflexivity.
  - destruct (p1 c); reflexivity.
  - destruct (p1 c); simpl; [reflexivity|].
    destruct (p2 c d); reflexivity.
  - destruct (p1 c); simpl; [reflexivity|].
    destruct (p2 c d); simpl; [reflexivity|].
    destruct (p3 c d e); reflexivity.
Qed.

Lemma trimFront_fixed (s : list ascii) : lead s = false -> trim s = s.
Proof. intros H. rewrite trimFront_unfold, H. reflexivity. Qed.

(** Induction on the length, which the three-byte step needs. *)
Lemma trimFront_ind (P : list ascii -> list ascii -> Prop) :
  (forall s, lead s = false -> P s s) ->
  (forall c s r, p1 c = true -> P s r -> P (c :: s) r) ->
  (forall c d s r, p1 c = false -> p2 c d = true -> P s r ->
                   P (c :: d :: s) r) ->
  (forall c d e s r, p1 c = false -> p2 c d = false -> p3 c d e = true ->
                     P s r -> P (c :: d :: e :: s) r) ->
  forall s, P s (trim s).
Proof.
  intros H0 H1 H2 H3 s.
  remember (length s) as n eqn:Hn.
  revert s Hn. induction n as [n IH] using lt_wf_ind. intros s Hn.
  destruct (lead s) eqn:Hl.
  2:{ rewrite trimFront_fixed by exact Hl. apply H0, Hl. }
  destruct s as [|c s1]; [discriminate|].
  simpl in *. destruct (p1 c) eqn:E1.
  { apply H1; [exact E1|]. apply (IH (length s1)); [lia|reflexivity]. }
  destruct s1 as [|d s2]; [discriminate|].
  simpl in *. destruct (p2 c d) eqn:E2.
  { apply H2; try assumption. apply (IH (length s2)); [lia|reflexivity]. }
  destruct s2 as [|e s3]; [discriminate|].
  simpl in *. rewrite Hl.
  apply H3; try assumption. apply (IH (length s3)); [lia|reflexivity].
Qed.

Lemma trimFront_starts (s : list ascii) : lead (trim s) = false.
Proof.
  apply (trimFront_ind (fun _ r => lead r = false)); auto.
Qed.

Lemma trimFront_suffix (s : list ascii) : exists d, s = (d ++ trim s)%list.
Proof.
  apply (trimFront_ind (fun s r => exists d, s = (d ++ r)%list)).
  - intros s0 _. exists []. reflexivity.
  - intros c s0 r _ [d ->]. exists (c :: d). reflexivity.
  - intros c d s0 r _ _ [x ->]. exists (c :: d :: x). reflexivity.
  - intros c d e s0 r _ _ _ [x ->]. exists (c :: d :: e :: x). reflexivity.
Qed.

Lemma trimFront_idemp (s : list ascii) : trim (trim s) = trim s.
Proof. apply trimFront_fixed, trimFront_starts. Qed.

(** A sequence that starts with an accepted rune still does so when
    extended. *)
Lemma starts_app (r t : list ascii) :
  lead r = true -> lead (r ++ t)%list = true.
Proof.
  destruct r as [|c [|d [|e r3]]]; simpl; try discriminate.
  - rewrite orb_false_r. intros ->. reflexivity.
  - destruct (p1 c); simpl; [reflexivity|].
    rewrite orb_false_r. intros ->. destruct t; reflexivity.
  - auto.
Qed.

Lemma starts_prefix_false (r t : list ascii) :
  lead (r ++ t)%list = false -> lead r = false.
Proof.
  intros H. destruct (lead r) eqn:E; [|reflexivity].
  rewrite (starts_app r t E) in H. discriminate.
Qed.
End TrimFacts.

Lemma trimRightSpace_prefix (s : list ascii) :
  exists d, s = (trimRightSpace s ++ d)%list.
Proof.
  unfold trimRightSpace.
  destruct (trimFront_suffix space1 (fun c d => space2 d c)
              (fun c d e => space3 e d c) (rev s)) as [d Hd].
  exists (rev d).
  rewrite <- rev_app_distr, <- Hd, rev_involutive. reflexivity.
Qed.

Lemma trimRightSpace_idemp (s : list ascii) :
  trimRightSpace (trimRightSpace s) = trimRightSpace s.
Proof.
  unfold trimRightSpace. rewrite rev_involutive, trimFront_idemp.
  reflexivity.
Qed.

Lemma trimSpace_bytes_idemp (s : list ascii) :
  trimRightSpace (trimLeftSpace (trimRightSpace (trimLeftSpace s)))
  = trimRightSpace (trimLeftSpace s).
Proof.
  assert (Hl : trimLeftSpace (trimRightSpace (trimLeftSpace s))
               = trimRightSpace (trimLeftSpace s)).
  { apply trimFront_fixed.
    destruct (trimRightSpace_prefix (trimLeftSpace s)) as [d Hd].
    apply starts_prefix_false with (t := d).
    rewrite <- Hd. apply trimFront_starts. }
  rewrite Hl. apply trimRightSpace_idemp.
Qed.

(** [strings.TrimSpace] is idempotent. *)
Lemma TrimSpace_idemp (s : string) : TrimSpace (TrimSpace s) = TrimSpace s.
Proof.
  unfold TrimSpace.
  rewrite list_ascii_of_string_of_list_ascii, trimSpace_bytes_idemp.
  reflexivity.
Qed.

Lemma TrimSpace_empty : TrimSpace "" = "".
Proof. reflexivity. Qed.

Lemma space1_ascii (c : ascii) :
  space1 c = true -> (N_of_ascii c <? 128)%N = true /\ lowerByte c = c.
Proof.
  unfold space1, lowerByte, byte_in, byte_is. intros H.
  apply orb_true_iff in H.
  assert (Hn : (N_of_ascii c <= 32)%N).
  { destruct H as [H|H].
    - apply andb_true_iff in H as [_ H]. apply N.leb_le in H. lia.
    - apply N.eqb_eq in H. lia. }
  split; [apply N.ltb_lt; lia|].
  replace (65 <=? N_of_ascii c)%N with false; [reflexivity|].
  symmetry. apply N.leb_gt. lia.
Qed.

Lemma trimLeftSpace_blank (l : list ascii) :
  forallb space1 l = true -> trimLeftSpace l = [].
Proof.
  induction l as [|c l IH]; [reflexivity|]. simpl.
  intros H. apply andb_true_iff in H as [Hc Hl].
  unfold trimLeftSpace in *. simpl. rewrite Hc. apply IH, Hl.
Qed.

Lemma TrimSpace_blank (s : string) : blank s = true -> TrimSpace s = "".
Proof.
  unfold blank, TrimSpace. intros H.
  rewrite trimLeftSpace_blank by exact H. reflexivity.
Qed.

Lemma ToLower_blank (unicodeLower : string -> string) (s : string) :
  blank s = true -> ToLower unicodeLower s = s.
Proof.
  unfold blank, ToLower, isASCII. intros H.
  assert (Hall : forall c, In c (list_ascii_of_string s) ->
                           (N_of_ascii c <? 128)%N = true /\ lowerByte c = c).
  { intros c Hc. apply space1_ascii.
    rewrite forallb_forall in H. apply H, Hc. }
  replace (forallb (fun c => (N_of_ascii c <? 128)%N)
             (list_ascii_of_string s)) with true.
  - rewrite <- (string_of_list_ascii_of_string s) at 2. f_equal.
    rewrite <- (map_id (list_ascii_of_string s)) at 2.
    apply map_ext_in. intros c Hc. apply Hall, Hc.
  - symmetry. apply forallb_forall. intros c Hc. apply Hall, Hc.
Qed.

(** ** The loader *)

Lemma nonEmpty_true (s : string) : nonEmpty s = true <-> s <> "".
Proof.
  unfold nonEmpty. rewrite negb_true_iff.
  destruct (String.eqb_spec s ""); split; congruence.
Qed.

Lemma nonEmpty_false (s : string) : nonEmpty s = false <-> s = "".
Proof.
  unfold nonEmpty. rewrite negb_false_iff. apply String.eqb_eq.
Qed.

Lemma resolvedName_nonEmpty (value : Json.value) (name : string) :
  resolvedName value = Some name -> name <> "".
Proof.
  unfold resolvedName. intros H. apply find_some in H as [_ H].
  apply nonEmpty_true, H.
Qed.

Lemma firstString_find (items : list Json.value) :
  firstString items = default "" (find nonEmpty (omap trimmedString items)).
Proof.
  induction items as [|item rest IH]; [reflexivity|].
  destruct item as [| |f|s|l|l]; simpl; try exact IH.
  fold (nonEmpty (TrimSpace s)).
  destruct (nonEmpty (TrimSpace s)); [reflexivity|exact IH].
Qed.

Lemma firstModelName_resolved (value : Json.value) :
  (if nonEmpty (firstModelName value) then Some (firstModelName value)
   else None) = resolvedName value.
Proof.
  unfold resolvedName.
  destruct value as [| |f|s|items|members]; simpl; try reflexivity.
  rewrite firstString_find.
  destruct (find nonEmpty (omap trimmedString items)) as [n|] eqn:E;
    simpl; [|reflexivity].
  apply find_some in E as [_ ->]. reflexivity.
Qed.

Lemma collect_lookup (raw : gmap string Json.value) (key : string) :
  collect raw !! key = raw !! key ≫= resolvedName.
Proof.
  unfold collect.
  apply (map_fold_weak_ind
           (fun (out : gmap string string) (m : gmap string Json.value) =>
              out !! key = m !! key ≫= resolvedName)).
  - rewrite !lookup_empty. reflexivity.
  - intros i x m r Hi IH. cbv zeta.
    fold (nonEmpty (firstModelName x)).
    pose proof (firstModelName_resolved x) as Hx.
    destruct (decide (i = key)) as [->|Hne].
    + rewrite lookup_insert_eq. simpl. rewrite <- Hx.
      destruct (nonEmpty (firstModelName x)).
      * apply lookup_insert_eq.
      * rewrite IH, Hi. reflexivity.
    + rewrite (lookup_insert_ne m) by exact Hne.
      destruct (nonEmpty (firstModelName x)); [|exact IH].
      rewrite lookup_insert_ne by exact Hne. exact IH.
Qed.

Lemma collect_namesNonEmpty (raw : gmap string Json.value) :
  namesNonEmpty (collect raw).
Proof.
  intros key H. rewrite collect_lookup in H.
  destruct (raw !! key) as [v|]; simpl in H; [|discriminate].
  apply resolvedName_nonEmpty in H. congruence.
Qed.

Lemma namesNonEmpty_empty : namesNonEmpty ∅.
Proof. intros key. rewrite lookup_empty. discriminate. Qed.

Lemma index_empty_iff (m : gmap string string) (code : string) :
  namesNonEmpty m -> (index m code = "" <-> m !! code = None).
Proof.
  intros Hm. unfold index. specialize (Hm code).
  destruct (m !! code) as [n|]; simpl; split; congruence.
Qed.

Lemma index_Some (m : gmap string string) (code name : string) :
  m !! code = Some name -> index m code = name.
Proof. unfold index. intros ->. reflexivity. Qed.

Section LoaderFacts.
Variable embeddedData : string -> option Json.bytes.
Variable foldedField : string -> option metaField.

Local Abbreviation readMap := (readDeviceMap embeddedData).
Local Abbreviation load := (loadAll embeddedData foldedField).

Lemma readDeviceMap_namesNonEmpty (path : string) :
  namesNonEmpty (readMap path).
Proof.
  unfold readDeviceMap.
  destruct (embeddedData path) as [b|]; [|apply namesNonEmpty_empty].
  destruct (Json.UnmarshalMap b) as [raw|]; [|apply namesNonEmpty_empty].
  apply collect_namesNonEmpty.
Qed.

Lemma loadAll_loaded (st : state) : loadOnce (load st) = true.
Proof.
  unfold loadAll. destruct (loadOnce st) eqn:E; [exact E|].
  reflexivity.
Qed.

Lemma loadAll_done (st : state) : loadOnce st = true -> load st = st.
Proof. unfold loadAll. intros ->. reflexivity. Qed.

(** Running the gate again changes nothing. *)
Lemma loadAll_idemp (st : state) : load (load st) = load st.
Proof. apply loadAll_done, loadAll_loaded. Qed.

Lemma loadAll_initial_tables : tablesNonEmpty (load initial).
Proof.
  unfold tablesNonEmpty; simpl.
  repeat split; apply readDeviceMap_namesNonEmpty.
Qed.
End LoaderFacts.

(** ** The lookup engine *)

Lemma recognized_false (platform : string) :
  recognized platform = false ->
  String.eqb platform PlatformIOS = false /\
  String.eqb platform PlatformIPADOS = false /\
  String.eqb platform PlatformMACOS = false /\
  String.eqb platform PlatformTVOS = false /\
  String.eqb platform PlatformWatchOS = false /\
  String.eqb platform PlatformVisionOS = false.
Proof.
  unfold recognized. cbn [existsb]. rewrite !orb_false_iff. tauto.
Qed.

(** Case analysis on the prefix tests, in the order the code makes them. *)
Ltac case_prefixes code :=
  destruct (HasPrefix code "iPhone"); [reflexivity|];
  destruct (HasPrefix code "iPod"); [reflexivity|];
  destruct (HasPrefix code "iPad"); [reflexivity|];
  destruct (HasPrefix code "Watch"); [reflexivity|];
  destruct (HasPrefix code "AppleTV"); [reflexivity|];
  destruct (HasPrefix code "RealityDevice"); [reflexivity|];
  destruct (HasPrefix code "iMac"); [reflexivity|];
  destruct (HasPrefix code "Mac"); reflexivity.

Section EngineFacts.

Variable unicodeLower : string -> string.
Variable embeddedData : string -> option Json.bytes.
Variable foldedField : string -> option metaField.

Local Abbreviation load := (loadAll embeddedData foldedField).
Local Abbreviation normalize := (Engine.normalizePlatform unicodeLower).
Local Abbreviation LookupDetailed :=
  (Engine.LookupDetailed embeddedData foldedField).
Local Abbreviation Lookup := (Engine.Lookup embeddedData foldedField).
Local Abbreviation LookupWithPlatform :=
  (Engine.LookupWithPlatform unicodeLower embeddedData foldedField).
Local Abbreviation DataVersion :=
  (Engine.DataVersion embeddedData foldedField).
Local Abbreviation reachable :=
  (Engine.reachable unicodeLower embeddedData foldedField).

Lemma lookupDetailedLoaded_trimmed (st : state) (code : string) :
  Engine.lookupDetailedLoaded st (TrimSpace code)
  = Engine.lookupDetailedLoaded st code.
Proof.
  unfold Engine.lookupDetailedLoaded. rewrite TrimSpace_idemp.
  reflexivity.
Qed.

Lemma lookupDetailedLoaded_blank (st : state) (code : string) :
  TrimSpace code = "" -> Engine.lookupDetailedLoaded st code = noDetail.
Proof.
  intros H. unfold Engine.lookupDetailedLoaded. rewrite H. reflexivity.
Qed.

Lemma Lookup_eq (code : string) (st : state) :
  Lookup code st = (Name (Engine.lookupDetailedLoaded (load st) code),
                    load st).
Proof. reflexivity. Qed.

Lemma LookupWithPlatform_state (platform code : string) (st : state) :
  snd (LookupWithPlatform platform code st) = load st.
Proof.
  unfold Engine.LookupWithPlatform.
  repeat match goal with
         | |- context [if ?b then _ else _] => destruct b
         end; try reflexivity.
  rewrite Lookup_eq. apply loadAll_idemp.
Qed.

(** Whatever has been called before, the tables a query reads are those
    of the one load. *)
Lemma reachable_load (st : state) :
  reachable st -> load st = load initial.
Proof.
  induction 1 as [|code st _ IH|code st _ IH|platform code st _ IH|st _ IH].
  - reflexivity.
  - rewrite Lookup_eq. simpl. rewrite loadAll_idemp. exact IH.
  - simpl. rewrite loadAll_idemp. exact IH.
  - rewrite LookupWithPlatform_state, loadAll_idemp. exact IH.
  - simpl. rewrite loadAll_idemp. exact IH.
Qed.

Lemma reachable_tables (st : state) :
  reachable st -> tablesNonEmpty (load st).
Proof.
  intros H. rewrite (reachable_load st H). apply loadAll_initial_tables.
Qed.

(** Once loaded, a reachable state is the loaded state and stays so. *)
Lemma reachable_cases (st : state) :
  reachable st -> st = initial \/ st = load initial.
Proof.
  induction 1 as [|code st H IH|code st H IH|platform code st H IH|st H IH];
    [left; reflexivity|right..].
  - rewrite Lookup_eq. simpl. apply reachable_load, H.
  - simpl. apply reachable_load, H.
  - rewrite LookupWithPlatform_state. apply reachable_load, H.
  - simpl. apply reachable_load, H.
Qed.

(** On one thread of control: after the load, no exported function
    writes the package variables. *)
Lemma loaded_state_kept (st : state) :
  loadOnce st = true ->
  (forall code, snd (Lookup code st) = st) /\
  (forall code, snd (LookupDetailed code st) = st) /\
  (forall platform code, snd (LookupWithPlatform platform code st) = st) /\
  snd (DataVersion st) = st.
Proof.
  intros H. pose proof (loadAll_done embeddedData foldedField st H) as E.
  repeat split; intros.
  - rewrite Lookup_eq. exact E.
  - exact E.
  - rewrite LookupWithPlatform_state. exact E.
  - exact E.
Qed.

Lemma lookupByPrefixDetailed_classify (st : state) (code : string) :
  Engine.lookupByPrefixDetailed st code = classify st code.
Proof.
  unfold Engine.lookupByPrefixDetailed, classify, prefixRules, matches.
  simpl. case_prefixes code.
Qed.

(** C1: when the trimmed and lowercased platform token is empty, the
    explicit-platform lookup is the automatic lookup: it returns the same
    name (and leaves the same state) for every identifier. *)
Theorem C1_empty_platform_delegates (platform id : string) (st : state) :
  normalize platform = "" ->
  LookupWithPlatform platform id st = Lookup id st.
Proof.
  intros Hp. unfold Engine.LookupWithPlatform. rewrite Hp. simpl.
  rewrite !Lookup_eq.
  destruct (String.eqb_spec (TrimSpace id) "") as [He|_].
  - rewrite lookupDetailedLoaded_blank by exact He. reflexivity.
  - rewrite loadAll_idemp, lookupDetailedLoaded_trimmed. reflexivity.
Qed.

(** C3: the classifier in the code is the ordered rule table of the
    specification: first matching rule, its tag, and the name read from
    its backing table (possibly empty); no match gives the empty
    result. *)
Theorem C3_classifier_order (st : state) (identifier : string) :
  Engine.lookupByPrefixDetailed st identifier = classify st identifier.
Proof.
  unfold classify, prefixRules, matches. cbn [find existsb prefixes].
  unfold Engine.lookupByPrefixDetailed.
  case_prefixes identifier.
Qed.

Lemma hasKey_index (m : gmap string string) (t code : string) :
  namesNonEmpty m ->
  negb (String.eqb (index m code) "") = hasKey code (t, m).
Proof.
  intros Hm. unfold hasKey, index. simpl. specialize (Hm code).
  destruct (m !! code) as [n|]; simpl; [|reflexivity].
  apply nonEmpty_true. congruence.
Qed.

Lemma lookupDetailedLoaded_reference (st : state) (id : string) :
  tablesNonEmpty st ->
  Engine.lookupDetailedLoaded st id = lookupAutoDetailed st id.
Proof.
  intros (Hios & Hmac & Htv & Hwatch & Hvision).
  unfold Engine.lookupDetailedLoaded, lookupAutoDetailed.
  rewrite lookupByPrefixDetailed_classify.
  destruct (String.eqb (TrimSpace id) ""); [reflexivity|].
  fold (nonEmpty (Name (classify st (TrimSpace id)))).
  destruct (nonEmpty (Name (classify st (TrimSpace id)))); [reflexivity|].
  unfold fallbackOrder. cbn [find].
  rewrite (hasKey_index _ PlatformIOS _ Hios).
  destruct (hasKey (TrimSpace id) (PlatformIOS, iosMap st));
    [reflexivity|].
  rewrite (hasKey_index _ PlatformMACOS _ Hmac).
  destruct (hasKey (TrimSpace id) (PlatformMACOS, macosMap st));
    [reflexivity|].
  rewrite (hasKey_index _ PlatformTVOS _ Htv).
  destruct (hasKey (TrimSpace id) (PlatformTVOS, tvosMap st));
    [reflexivity|].
  rewrite (hasKey_index _ PlatformWatchOS _ Hwatch).
  destruct (hasKey (TrimSpace id) (PlatformWatchOS, watchosMap st));
    [reflexivity|].
  rewrite (hasKey_index _ PlatformVisionOS _ Hvision).
  destruct (hasKey (TrimSpace id) (PlatformVisionOS, visionosMap st));
    reflexivity.
Qed.

(** C2: in every state the package can be in, [LookupDetailed] and
    [Lookup] compute the reference algorithm over the loaded tables:
    trim; empty gives the empty result; a non-empty name from the
    classifier is returned; otherwise the first family, in the order
    phone, desktop, set-top box, wearable, spatial computing, whose table
    has the trimmed identifier as a key gives its stored name; otherwise
    the empty result. *)
Theorem C2_auto_lookup_reference (st : state) (id : string) :
  reachable st ->
  fst (LookupDetailed id st) = lookupAutoDetailed (load initial) id /\
  fst (Lookup id st) = lookupAuto (load initial) id.
Proof.
  intros Hst. rewrite Lookup_eq. unfold Engine.LookupDetailed, lookupAuto.
  cbn [fst]. rewrite (reachable_load st Hst).
  rewrite lookupDetailedLoaded_reference
    by apply loadAll_initial_tables.
  split; reflexivity.
Qed.

(** C4 (amended): a platform token whose trimmed and lowercased form is
    not empty and is none of the six family tags gives the empty string
    for every identifier, with no fallback scan and no classification. *)
Theorem C4_unrecognized_platform_strict (platform id : string) (st : state) :
  normalize platform <> "" ->
  recognized (normalize platform) = false ->
  LookupWithPlatform platform id st = ("", load st).
Proof.
  intros Hne Hrec. unfold Engine.LookupWithPlatform.
  destruct (String.eqb (TrimSpace id) ""); [reflexivity|].
  apply String.eqb_neq in Hne. cbv zeta. rewrite Hne.
  apply recognized_false in Hrec as (-> & -> & -> & -> & -> & ->).
  reflexivity.
Qed.

Lemma normalize_ios : normalize PlatformIOS = PlatformIOS.
Proof. reflexivity. Qed.

Lemma normalize_ipados : normalize PlatformIPADOS = PlatformIPADOS.
Proof. reflexivity. Qed.

(** The empty token and every token of ASCII white space normalize to
    the empty string. *)
Lemma normalize_blank (platform : string) :
  blank platform = true -> normalize platform = "".
Proof.
  intros H. unfold Engine.normalizePlatform.
  rewrite ToLower_blank by exact H. apply TrimSpace_blank, H.
Qed.

Lemma blank_platform_delegates (platform id : string) (st : state) :
  blank platform = true ->
  LookupWithPlatform platform id st = Lookup id st.
Proof.
  intros H. unfold Engine.LookupWithPlatform.
  rewrite (normalize_blank platform H). simpl.
  rewrite !Lookup_eq.
  destruct (String.eqb_spec (TrimSpace id) "") as [He|_].
  - rewrite lookupDetailedLoaded_blank by exact He. reflexivity.
  - rewrite loadAll_idemp, lookupDetailedLoaded_trimmed. reflexivity.
Qed.

(** C5: the tablet tag and the phone tag read the same table: the
    explicit-platform lookup gives the same result under both, for every
    identifier. *)
Theorem C5_tablet_aliases_phone (id : string) (st : state) :
  LookupWithPlatform PlatformIPADOS id st
  = LookupWithPlatform PlatformIOS id st.
Proof.
  unfold Engine.LookupWithPlatform.
  rewrite normalize_ios, normalize_ipados.
  destruct (String.eqb (TrimSpace id) ""); reflexivity.
Qed.

Lemma classifier_hit_tag (st : state) (code : string) :
  Name (Engine.lookupByPrefixDetailed st code) <> "" ->
  Platform (Engine.lookupByPrefixDetailed st code) <> "".
Proof.
  unfold Engine.lookupByPrefixDetailed.
  repeat match goal with
         | |- context [if ?b then _ else _] => destruct b
         end; simpl; try discriminate.
  auto.
Qed.

(** C8: the two fields of a detailed result are empty together or
    non-empty together, for every identifier and every state. *)
Theorem C8_detail_fields_joint (id : string) (st : state) :
  let detail := fst (LookupDetailed id st) in
  (Platform detail = "" /\ Name detail = "") \/
  (Platform detail <> "" /\ Name detail <> "").
Proof.
  unfold Engine.LookupDetailed. cbn [fst].
  generalize (load st). clear st. intros st.
  unfold Engine.lookupDetailedLoaded. cbv zeta.
  destruct (String.eqb (TrimSpace id) ""); [left; split; reflexivity|].
  destruct (String.eqb_spec
              (Name (Engine.lookupByPrefixDetailed st (TrimSpace id))) "")
    as [_|Hhit]; simpl.
  2:{ right. split; [apply classifier_hit_tag|]; exact Hhit. }
  repeat match goal with
         | |- context [String.eqb ?x ""] =>
             destruct (String.eqb_spec x ""); simpl
         end;
    solve [ left; split; reflexivity
          | right; split; [discriminate|assumption] ].
Qed.

Lemma unprefixed_classifier (st : state) (code : string) :
  unprefixed code = true ->
  Engine.lookupByPrefixDetailed st code = noDetail.
Proof.
  unfold unprefixed. cbn [existsb]. rewrite negb_true_iff.
  rewrite !orb_false_iff.
  intros (H1 & H2 & H3 & H4 & H5 & H6 & H7 & H8 & _).
  unfold Engine.lookupByPrefixDetailed.
  rewrite H1, H2, H3, H4, H5, H6, H7, H8. reflexivity.
Qed.

Lemma tablet_tag_prefix (st : state) (id : string) :
  Platform (Engine.lookupDetailedLoaded st id) = PlatformIPADOS ->
  HasPrefix (TrimSpace id) "iPad" = true.
Proof.
  unfold Engine.lookupDetailedLoaded, Engine.lookupByPrefixDetailed.
  cbv zeta.
  destruct (HasPrefix (TrimSpace id) "iPad"); [reflexivity|].
  repeat match goal with
         | |- context [if ?b then _ else _] => destruct b
         end; simpl; discriminate.
Qed.

(** C10 (amended): the tablet tag is reported only for an identifier
    whose trimmed form starts with [iPad]; an identifier whose trimmed
    form matches no classifier prefix is never reported as tablet, and
    when that trimmed form is not empty and is a key of the phone table,
    the result carries the phone tag and the phone table's name. *)
Theorem C10_tablet_tag_only_by_prefix (st : state) (id : string) :
  reachable st ->
  let code := TrimSpace id in
  let detail := fst (LookupDetailed id st) in
  (Platform detail = PlatformIPADOS -> HasPrefix code "iPad" = true) /\
  (unprefixed code = true -> Platform detail <> PlatformIPADOS) /\
  (unprefixed code = true -> code <> "" ->
   forall name, iosMap (load initial) !! code = Some name ->
                detail = {| Platform := PlatformIOS; Name := name |}).
Proof.
  intros Hst. cbv zeta. unfold Engine.LookupDetailed. cbn [fst].
  rewrite (reachable_load st Hst).
  split; [apply tablet_tag_prefix|]. split.
  - intros Hun Htab. apply tablet_tag_prefix in Htab.
    revert Hun. unfold unprefixed. cbn [existsb]. rewrite Htab.
    rewrite !orb_true_r. discriminate.
  - intros Hun Hcode name Hname.
    destruct (loadAll_initial_tables embeddedData foldedField)
      as (Hios & _).
    assert (Hne : name <> "") by (intros ->; exact (Hios _ Hname)).
    unfold Engine.lookupDetailedLoaded. cbv zeta.
    apply String.eqb_neq in Hcode. rewrite Hcode.
    rewrite (unprefixed_classifier _ _ Hun).
    rewrite (index_Some _ _ _ Hname). simpl.
    apply String.eqb_neq in Hne. rewrite Hne. reflexivity.
Qed.

End EngineFacts.

(** ** Loading and failure *)

Section LoaderClaims.
Variable embeddedData : string -> option Json.bytes.
Variable foldedField : string -> option metaField.

Local Abbreviation readMap := (readDeviceMap embeddedData).
Local Abbreviation load := (loadAll embeddedData foldedField).

Lemma readDeviceMap_decoded (path : string) (b : Json.bytes)
    (raw : gmap string Json.value) :
  embeddedData path = Some b -> Json.UnmarshalMap b = Some raw ->
  readMap path = collect raw.
Proof. unfold readDeviceMap. intros -> ->. reflexivity. Qed.

(** C6: for a document that decodes to [raw], the loaded table holds
    under each key the resolved name of the raw value: the trimmed
    string, or the first string of the sequence that is not empty once
    trimmed; an entry without such a name is absent.  No loaded table
    holds an empty name. *)
Theorem C6_loader_resolves_names (path : string) (b : Json.bytes)
    (raw : gmap string Json.value) :
  embeddedData path = Some b -> Json.UnmarshalMap b = Some raw ->
  (forall key, readMap path !! key = raw !! key ≫= resolvedName) /\
  (forall key name, readMap path !! key = Some name -> name <> "") /\
  tablesNonEmpty (load initial).
Proof.
  intros Hb Hraw. rewrite (readDeviceMap_decoded path b raw Hb Hraw).
  split; [|split].
  - intros key. apply collect_lookup.
  - intros key name H ->. exact (collect_namesNonEmpty raw key H).
  - apply loadAll_initial_tables.
Qed.

Lemma load_table (f : family) :
  table f (load initial) = readMap (documentPath f).
Proof. destruct f; reflexivity. Qed.

Lemma readDeviceMap_unreadable (path : string) :
  embeddedData path = None -> readMap path = ∅.
Proof. unfold readDeviceMap. intros ->. reflexivity. Qed.

Lemma readDeviceMap_unparsable (path : string) (b : Json.bytes) :
  embeddedData path = Some b -> Json.UnmarshalMap b = None ->
  readMap path = ∅.
Proof. unfold readDeviceMap. intros -> ->. reflexivity. Qed.

Lemma UnmarshalMeta_not_object (b : Json.bytes) (out : upstreamMeta) :
  match b with
  | Json.NotJSON => True
  | Json.JSON v => isObject v = false
  end ->
  fst (UnmarshalMeta foldedField b out) = out.
Proof.
  destruct b as [|v]; [reflexivity|].
  destruct v; simpl; try reflexivity. discriminate.
Qed.

(** A family's table depends on no other document. *)
Lemma readDeviceMap_local (other : string -> option Json.bytes)
    (path : string) :
  other path = embeddedData path ->
  readDeviceMap other path = readMap path.
Proof. unfold readDeviceMap. intros ->. reflexivity. Qed.

(** C7 (amended): loading is total.  Each family's table is read from
    its own document alone, whatever the other documents are; a document
    that cannot be read, or that [json.Unmarshal] rejects, gives that
    family the empty table.  The metadata record has four empty fields
    when its document cannot be read, is no JSON text, or is a JSON value
    other than an object. *)
Theorem C7_loading_degrades_silently :
  (forall f, table f (load initial) = readMap (documentPath f)) /\
  (forall f other fold,
     other (documentPath f) = embeddedData (documentPath f) ->
     table f (loadAll other fold initial) = table f (load initial)) /\
  (forall f, embeddedData (documentPath f) = None ->
             table f (load initial) = ∅) /\
  (forall f b, embeddedData (documentPath f) = Some b ->
               Json.UnmarshalMap b = None ->
               table f (load initial) = ∅) /\
  (embeddedData metadataPath = None ->
   meta (load initial) = zeroMeta) /\
  (embeddedData metadataPath = Some Json.NotJSON ->
   meta (load initial) = zeroMeta) /\
  (forall v, embeddedData metadataPath = Some (Json.JSON v) ->
             isObject v = false ->
             meta (load initial) = zeroMeta).
Proof.
  split; [apply load_table|].
  split.
  { intros f other fold H. destruct f; simpl in *;
      apply readDeviceMap_local, H. }
  split.
  { intros f H. rewrite load_table. apply readDeviceMap_unreadable, H. }
  split.
  { intros f b Hb H. rewrite load_table.
    apply (readDeviceMap_unparsable _ b); assumption. }
  unfold metadataPath. simpl. unfold readUpstreamMeta.
  split; [intros ->; reflexivity|].
  split; [intros ->; reflexivity|].
  intros v -> Hv. apply UnmarshalMeta_not_object, Hv.
Qed.

End LoaderClaims.

(** ** The older copy *)

Section DevicemodelFacts.

Variable unicodeLower : string -> string.
Variable embeddedData : string -> option Json.bytes.
Variable foldedField : string -> option metaField.

Local Abbreviation load := (loadAll embeddedData foldedField).
Local Abbreviation OldLookup :=
  (Devicemodel.Lookup unicodeLower embeddedData foldedField).
Local Abbreviation OldLookupWithPlatform :=
  (Devicemodel.LookupWithPlatform unicodeLower embeddedData foldedField).

Lemma Devicemodel_normalize_ios :
  Devicemodel.normalizePlatform unicodeLower PlatformIOS = PlatformIOS.
Proof. reflexivity. Qed.

(** Its [Lookup] reads the phone table and nothing else. *)
Lemma Devicemodel_Lookup_phone_only (code : string) (st : state) :
  OldLookup code st =
  (if String.eqb (TrimSpace code) "" then ""
   else index (iosMap (load st)) (TrimSpace code), load st).
Proof.
  unfold Devicemodel.Lookup, Devicemodel.LookupWithPlatform.
  rewrite Devicemodel_normalize_ios.
  destruct (String.eqb (TrimSpace code) ""); reflexivity.
Qed.

(** An empty platform is, there too, the same as its [Lookup]. *)
Lemma Devicemodel_empty_platform (platform code : string) (st : state) :
  TrimSpace (ToLower unicodeLower platform) = "" ->
  OldLookupWithPlatform platform code st = OldLookup code st.
Proof.
  intros H. unfold Devicemodel.Lookup, Devicemodel.LookupWithPlatform.
  rewrite Devicemodel_normalize_ios.
  unfold Devicemodel.normalizePlatform. rewrite H. reflexivity.
Qed.

Lemma Devicemodel_tablet_aliases_phone (code : string) (st : state) :
  OldLookupWithPlatform PlatformIPADOS code st
  = OldLookupWithPlatform PlatformIOS code st.
Proof.
  unfold Devicemodel.LookupWithPlatform.
  rewrite Devicemodel_normalize_ios.
  replace (Devicemodel.normalizePlatform unicodeLower PlatformIPADOS)
    with PlatformIPADOS by reflexivity.
  destruct (String.eqb (TrimSpace code) ""); reflexivity.
Qed.

Lemma Devicemodel_unrecognized_platform (platform code : string)
    (st : state) :
  TrimSpace (ToLower unicodeLower platform) <> "" ->
  recognized (TrimSpace (ToLower unicodeLower platform)) = false ->
  OldLookupWithPlatform platform code st = ("", load st).
Proof.
  intros Hne Hrec. unfold Devicemodel.LookupWithPlatform.
  destruct (String.eqb (TrimSpace code) ""); [reflexivity|].
  unfold Devicemodel.normalizePlatform.
  apply String.eqb_neq in Hne. cbv zeta. rewrite Hne.
  apply recognized_false in Hrec as (-> & -> & -> & -> & -> & ->).
  reflexivity.
Qed.

End DevicemodelFacts.

Example TrimSpace_ex1 : TrimSpace "  iPhone18,1 " = "iPhone18,1".
Proof. reflexivity. Qed.

(** A leading U+00A0 is white space. *)
Example TrimSpace_ex2 :
  TrimSpace (String (ascii_of_N 0xC2) (String (ascii_of_N 0xA0) "a b "))
  = "a b".
Proof. reflexivity. Qed.

Example ToLower_ex1 : ToLower noUnicode " WatchOS " = " watchos ".
Proof. reflexivity. Qed.

Example Lookup_ex1 :
  fst (Engine.Lookup sampleData noFolding " iPhone18,1 " initial)
  = "iPhone 17 Pro".
Proof. vm_compute. reflexivity. Qed.

Example LookupDetailed_ex1 :
  fst (Engine.LookupDetailed sampleData noFolding "iPad16,3" initial)
  = {| Platform := "ipados"; Name := "iPad Pro 11-inch (M4)" |}.
Proof. vm_compute. reflexivity. Qed.

Example LookupDetailed_ex2 :
  fst (Engine.LookupDetailed sampleData noFolding "i386" initial)
  = {| Platform := "ios"; Name := "iPhone Simulator" |}.
Proof. vm_compute. reflexivity. Qed.

Example LookupDetailed_ex3 :
  fst (Engine.LookupDetailed sampleData noFolding "Unknown,0" initial)
  = noDetail.
Proof. vm_compute. reflexivity. Qed.

Example LookupWithPlatform_ex1 :
  fst (Engine.LookupWithPlatform noUnicode sampleData noFolding
         " MacOS" "MacBookPro18,3" initial)
  = "MacBook Pro (14-inch, 2021)".
Proof. vm_compute. reflexivity. Qed.

Example LookupWithPlatform_ex2 :
  fst (Engine.LookupWithPlatform noUnicode sampleData noFolding
         "macos" "Mac0,0" initial)
  = "".
Proof. vm_compute. reflexivity. Qed.

Example DataVersion_ex1 :
  fst (Engine.DataVersion sampleData noFolding initial)
  = ("kyle-seongwoo-jun/apple-device-identifiers", "main sha:0a1b2c3",
     "2026-01-01T00:00:00Z").
Proof. vm_compute. reflexivity. Qed.

Example Devicemodel_Lookup_ex1 :
  fst (Devicemodel.Lookup noUnicode sampleData noFolding "Watch1,1" initial)
  = "".
Proof. vm_compute. reflexivity. Qed.

(** ** The claims at concrete inputs *)

Lemma C1_witness :
  Engine.normalizePlatform noUnicode "  " = "" /\
  Engine.LookupWithPlatform noUnicode sampleData noFolding
    "  " "Watch1,1" initial
  = Engine.Lookup sampleData noFolding "Watch1,1" initial.
Proof.
  split; [reflexivity|].
  apply (C1_empty_platform_delegates noUnicode sampleData noFolding
           "  " "Watch1,1" initial).
  reflexivity.
Defined.

Lemma C2_witness :
  Engine.reachable noUnicode sampleData noFolding initial /\
  fst (Engine.LookupDetailed sampleData noFolding " i386" initial)
  = lookupAutoDetailed (loadAll sampleData noFolding initial) " i386" /\
  fst (Engine.Lookup sampleData noFolding " i386" initial)
  = lookupAuto (loadAll sampleData noFolding initial) " i386".
Proof.
  split; [apply Engine.reach_initial|].
  apply (C2_auto_lookup_reference noUnicode sampleData noFolding
           initial " i386").
  apply Engine.reach_initial.
Defined.

(** C4 as stated fails: the token of one space is not empty and its
    normalized form is no family tag, yet the lookup goes through automatic
    detection and finds the wearable. *)
Lemma C4_counterexample :
  " " <> "" /\
  recognized (Engine.normalizePlatform noUnicode " ") = false /\
  fst (Engine.LookupWithPlatform noUnicode sampleData noFolding
         " " "Watch1,1" initial)
  = "Apple Watch (1st generation)" /\
  fst (Engine.LookupWithPlatform noUnicode sampleData noFolding
         " " "Watch1,1" initial)
  <> "".
Proof.
  split; [discriminate|]. split; [reflexivity|].
  split; [vm_compute; reflexivity|]. vm_compute. discriminate.
Qed.

Lemma C4_witness :
  Engine.normalizePlatform noUnicode "android" <> "" /\
  recognized (Engine.normalizePlatform noUnicode "android") = false /\
  Engine.LookupWithPlatform noUnicode sampleData noFolding
    "android" "SM-S9280" initial
  = ("", loadAll sampleData noFolding initial).
Proof.
  assert (Hne : Engine.normalizePlatform noUnicode "android" <> "")
    by (vm_compute; discriminate).
  split; [exact Hne|]. split; [reflexivity|].
  apply (C4_unrecognized_platform_strict noUnicode sampleData noFolding
           "android" "SM-S9280" initial Hne).
  reflexivity.
Defined.

Lemma C6_witness :
  sampleData "data/mac-device-identifiers.json" = Some macDocument /\
  Json.UnmarshalMap macDocument = Some macRaw /\
  (forall key,
     readDeviceMap sampleData "data/mac-device-identifiers.json" !! key
     = macRaw !! key ≫= resolvedName) /\
  (forall key name,
     readDeviceMap sampleData "data/mac-device-identifiers.json" !! key
     = Some name -> name <> "") /\
  tablesNonEmpty (loadAll sampleData noFolding initial).
Proof.
  split; [reflexivity|]. split; [reflexivity|].
  apply (C6_loader_resolves_names sampleData noFolding
           "data/mac-device-identifiers.json" macDocument macRaw);
    reflexivity.
Defined.

(** C7 as stated fails for the metadata: [json.Unmarshal] reports an
    error for the document, and the record still carries the repository
    name it decoded before the mistyped member. *)
Lemma C7_counterexample :
  mistypedMetaData metadataPath = Some mistypedMeta /\
  snd (UnmarshalMeta noFolding mistypedMeta zeroMeta) = true /\
  UpstreamRepo (meta (loadAll mistypedMetaData noFolding initial))
  = "kyle-seongwoo-jun/apple-device-identifiers" /\
  meta (loadAll mistypedMetaData noFolding initial) <> zeroMeta.
Proof.
  split; [reflexivity|]. split; [reflexivity|]. split; [reflexivity|].
  vm_compute. discriminate.
Qed.

Lemma C7_witness :
  table Wearable (loadAll damagedData noFolding initial) = ∅ /\
  table SetTopBox (loadAll damagedData noFolding initial) = ∅ /\
  table Phone (loadAll damagedData noFolding initial)
  = table Phone (loadAll sampleData noFolding initial) /\
  meta (loadAll damagedData noFolding initial) = zeroMeta.
Proof.
  destruct (C7_loading_degrades_silently damagedData noFolding)
    as (_ & Hlocal & Hread & Hparse & _ & Hmeta & _).
  split; [apply (Hread Wearable); reflexivity|].
  split; [apply (Hparse SetTopBox (Json.JSON (Json.Array [])));
          reflexivity|].
  split; [symmetry; apply (Hlocal Phone sampleData noFolding); reflexivity|].
  apply Hmeta. reflexivity.
Defined.

(** C10 as stated fails on the empty identifier: no prefix matches it and
    the phone table holds it, yet the result is the empty one. *)
Lemma C10_counterexample :
  unprefixed (TrimSpace "") = true /\
  iosMap (loadAll emptyKeyData noFolding initial) !! TrimSpace ""
  = Some "Prototype" /\
  fst (Engine.LookupDetailed emptyKeyData noFolding "" initial) = noDetail /\
  fst (Engine.LookupDetailed emptyKeyData noFolding "" initial)
  <> {| Platform := PlatformIOS; Name := "Prototype" |}.
Proof.
  split; [reflexivity|]. split; [vm_compute; reflexivity|].
  split; [reflexivity|]. vm_compute. discriminate.
Qed.

Lemma C10_witness :
  Engine.reachable noUnicode sampleData noFolding initial /\
  unprefixed (TrimSpace "i386 ") = true /\
  TrimSpace "i386 " <> "" /\
  iosMap (loadAll sampleData noFolding initial) !! TrimSpace "i386 "
  = Some "iPhone Simulator" /\
  fst (Engine.LookupDetailed sampleData noFolding "i386 " initial)
  = {| Platform := PlatformIOS; Name := "iPhone Simulator" |}.
Proof.
  assert (Hne : TrimSpace "i386 " <> "") by (vm_compute; discriminate).
  assert (Hkey : iosMap (loadAll sampleData noFolding initial)
                 !! TrimSpace "i386 " = Some "iPhone Simulator")
    by (vm_compute; reflexivity).
  split; [apply Engine.reach_initial|]. split; [reflexivity|].
  split; [exact Hne|]. split; [exact Hkey|].
  destruct (C10_tablet_tag_only_by_prefix noUnicode sampleData noFolding
              initial "i386 " (Engine.reach_initial _ _ _))
    as (_ & _ & Hphone).
  apply Hphone; [reflexivity|exact Hne|exact Hkey].
Defined.

(** * Further properties of the code *)

Lemma index_nonempty (m : gmap string string) (code : string) :
  index m code <> "" -> m !! code = Some (index m code).
Proof.
  unfold index. destruct (m !! code) as [n|]; simpl; congruence.
Qed.

Lemma index_None (m : gmap string string) (code : string) :
  m !! code = None -> index m code = "".
Proof. unfold index. intros ->. reflexivity. Qed.

Lemma resolvedName_trimmed (value : Json.value) (name : string) :
  resolvedName value = Some name -> TrimSpace name = name.
Proof.
  unfold resolvedName. intros H. apply find_some in H as [Hin _].
  destruct value as [| |f|s|items|members]; simpl in Hin;
    try contradiction.
  - destruct Hin as [<-|[]]. apply TrimSpace_idemp.
  - apply list_elem_of_In, list_elem_of_omap in Hin as (item & _ & Hitem).
    destruct item; simpl in Hitem; try discriminate.
    injection Hitem as <-. apply TrimSpace_idemp.
Qed.

Lemma readDeviceMap_trimmed (embeddedData : string -> option Json.bytes)
    (path key name : string) :
  readDeviceMap embeddedData path !! key = Some name ->
  TrimSpace name = name.
Proof.
  unfold readDeviceMap.
  destruct (embeddedData path) as [b|];
    [|rewrite lookup_empty; discriminate].
  destruct (Json.UnmarshalMap b) as [raw|];
    [|rewrite lookup_empty; discriminate].
  rewrite collect_lookup.
  destruct (raw !! key) as [v|]; simpl; [|discriminate].
  apply resolvedName_trimmed.
Qed.

Lemma tagTable_familyTag (f : family) (st : state) :
  tagTable (familyTag f) st = Some (table f st).
Proof. destruct f; reflexivity. Qed.

(** *** Bytes that trimming cannot remove *)

Section TrimKeeps.
Variable p1 : ascii -> bool.
Variable p2 : ascii -> ascii -> bool.
Variable p3 : ascii -> ascii -> ascii -> bool.
Variable c : ascii.
Hypothesis c1 : p1 c = false.
Hypothesis c2 : forall d, p2 c d = false /\ p2 d c = false.
Hypothesis c3 :
  forall d e, p3 c d e = false /\ p3 d c e = false /\ p3 d e c = false.

Lemma trimFront_keeps (s : list ascii) :
  In c s -> In c (trimFront p1 p2 p3 s).
Proof using c1 c2 c3.
  apply (trimFront_ind p1 p2 p3 (fun s r => In c s -> In c r)).
  - auto.
  - intros c0 s0 r H0 IH [->|Hin]; [congruence|auto].
  - intros c0 d s0 r _ H0 IH [->|[->|Hin]]; [| |auto].
    + destruct (c2 d). congruence.
    + destruct (c2 c0). congruence.
  - intros c0 d e s0 r _ _ H0 IH [->|[->|[->|Hin]]]; [| | |auto].
    + destruct (c3 d e) as (? & ? & ?). congruence.
    + destruct (c3 c0 e) as (? & ? & ?). congruence.
    + destruct (c3 c0 d) as (? & ? & ?). congruence.
Qed.
End TrimKeeps.

Lemma byte_is_high (c : ascii) (Hc : (N_of_ascii c < 128)%N) (k : N) :
  (128 <= k)%N -> byte_is c k = false.
Proof. intros Hk. unfold byte_is. apply N.eqb_neq. lia. Qed.

Lemma byte_in_high (c : ascii) (Hc : (N_of_ascii c < 128)%N) (lo hi : N) :
  (128 <= lo)%N -> byte_in c lo hi = false.
Proof.
  intros Hk. unfold byte_in. apply andb_false_iff. left.
  apply N.leb_gt. lia.
Qed.

Ltac case_bytes :=
  repeat match goal with
         | |- context [byte_is ?x ?k] => destruct (byte_is x k)
         | |- context [byte_in ?x ?lo ?hi] => destruct (byte_in x lo hi)
         end.

(** An ASCII byte is part of no multi-byte white space. *)
Lemma space2_ascii (c : ascii) (Hc : (N_of_ascii c < 128)%N) (d : ascii) :
  space2 c d = false /\ space2 d c = false.
Proof.
  unfold space2. rewrite !(byte_is_high c Hc) by lia.
  split; case_bytes; reflexivity.
Qed.

Lemma space3_ascii (c : ascii) (Hc : (N_of_ascii c < 128)%N) (d e : ascii) :
  space3 c d e = false /\ space3 d c e = false /\ space3 d e c = false.
Proof.
  unfold space3.
  rewrite !(byte_is_high c Hc), !(byte_in_high c Hc) by lia.
  repeat split; case_bytes; reflexivity.
Qed.

(** An ASCII byte that is no white space survives [strings.TrimSpace]. *)
Lemma TrimSpace_keeps (c : ascii) (s : string) :
  (N_of_ascii c < 128)%N -> space1 c = false ->
  In c (list_ascii_of_string s) ->
  In c (list_ascii_of_string (TrimSpace s)).
Proof.
  intros Hc Hs Hin. unfold TrimSpace.
  rewrite list_ascii_of_string_of_list_ascii.
  unfold trimRightSpace, trimLeftSpace.
  apply -> in_rev.
  apply trimFront_keeps.
  - exact Hs.
  - intros d. destruct (space2_ascii c Hc d). auto.
  - intros d e. destruct (space3_ascii c Hc d e) as (? & ? & ?).
    destruct (space3_ascii c Hc e d) as (? & ? & ?). auto.
  - apply -> in_rev.
    apply trimFront_keeps.
    + exact Hs.
    + apply (space2_ascii c Hc).
    + apply (space3_ascii c Hc).
    + exact Hin.
Qed.

Lemma list_ascii_of_string_app (a b : string) :
  list_ascii_of_string (a ++ b)
  = (list_ascii_of_string a ++ list_ascii_of_string b)%list.
Proof.
  induction a as [|c a IH]; simpl; [reflexivity|]. rewrite IH. reflexivity.
Qed.

(** *** Decoding objects *)

Lemma getField_setField (f g : metaField) (s : string) (m : upstreamMeta) :
  getField f (setField g s m)
  = if metaField_eqb g f then s else getField f m.
Proof. destruct f, g; reflexivity. Qed.

Lemma foldl_storeMember (foldedField : string -> option metaField)
    (f : metaField) (members : list (string * Json.value))
    (acc : upstreamMeta * bool) :
  getField f (fst (foldl (storeMember foldedField) acc members))
  = default (getField f (fst acc))
      (lastStored (fieldOfKey foldedField) f members).
Proof.
  revert acc. induction members as [|member rest IH]; intros acc;
    [reflexivity|].
  simpl. rewrite IH.
  destruct (lastStored (fieldOfKey foldedField) f rest) as [s|];
    [reflexivity|].
  unfold storeMember.
  destruct (fieldOfKey foldedField (fst member)) as [g|]; [|reflexivity].
  destruct (snd member); simpl; try reflexivity.
  rewrite getField_setField.
  destruct (metaField_eqb g f); reflexivity.
Qed.

Lemma foldl_insert_lookup (members : list (string * Json.value))
    (raw : gmap string Json.value) (key : string) :
  foldl (fun raw kv => <[fst kv := snd kv]> raw) raw members !! key
  = match lastMember key members with
    | Some v => Some v
    | None => raw !! key
    end.
Proof.
  revert raw. induction members as [|member rest IH]; intros raw;
    [reflexivity|].
  simpl. rewrite IH.
  destruct (lastMember key rest) as [v|]; [reflexivity|].
  destruct (String.eqb_spec (fst member) key) as [->|Hne].
  - apply lookup_insert_eq.
  - apply lookup_insert_ne, Hne.
Qed.

(** *** The prefixes of the classifier *)

Lemma prefix_cons (a : ascii) (p s : string) :
  String.prefix (String a p) s = true ->
  exists s', s = String a s' /\ String.prefix p s' = true.
Proof.
  destruct s as [|b s']; simpl; [discriminate|].
  destruct (ascii_dec a b) as [->|_]; [eauto|discriminate].
Qed.

Lemma prefix_cons_inv (a b : ascii) (p s : string) :
  String.prefix (String a p) (String b s) = true ->
  a = b /\ String.prefix p s = true.
Proof.
  simpl. destruct (ascii_dec a b) as [->|_]; [auto|discriminate].
Qed.

(** Two literal prefixes that differ at some byte cannot both match. *)
Ltac prefix_clash :=
  repeat match goal with
         | H : String.prefix (String _ _) (String _ _) = true |- _ =>
             apply prefix_cons_inv in H as [? H]; try discriminate
         | H : String.prefix (String _ _) ?s = true |- _ =>
             is_var s; apply prefix_cons in H as (? & -> & H)
         end.

Lemma rules_disjoint (st : state) (code : string) (r1 r2 : rule) :
  In r1 (prefixRules st) -> In r2 (prefixRules st) ->
  matches code r1 = true -> matches code r2 = true -> r1 = r2.
Proof.
  unfold prefixRules, matches, HasPrefix. simpl.
  intros H1 H2.
  repeat (destruct H1 as [<-|H1]; [|]); try contradiction;
    repeat (destruct H2 as [<-|H2]; [|]); try contradiction;
    try reflexivity;
    simpl; rewrite !orb_false_r; rewrite ?orb_true_iff;
    intros M1 M2; exfalso;
    repeat match goal with
           | H : _ \/ _ |- _ => destruct H
           end;
    prefix_clash.
Qed.

Lemma find_unique_Permutation {A : Type} (p : A -> bool) (l l' : list A) :
  (forall x y, In x l -> In y l -> p x = true -> p y = true -> x = y) ->
  Permutation l' l ->
  find p l' = find p l.
Proof.
  intros Huniq Hperm.
  destruct (find p l) as [x|] eqn:Hx.
  - apply find_some in Hx as [Hin Hpx].
    destruct (find p l') as [y|] eqn:Hy.
    + apply find_some in Hy as [Hin' Hpy]. f_equal.
      apply Huniq; try assumption.
      apply (Permutation_in _ Hperm), Hin'.
    + exfalso. apply (Permutation_in _ (Permutation_sym Hperm)) in Hin.
      pose proof (find_none _ _ Hy _ Hin). congruence.
  - destruct (find p l') as [y|] eqn:Hy; [|reflexivity].
    apply find_some in Hy as [Hin' Hpy].
    apply (Permutation_in _ Hperm) in Hin'.
    pose proof (find_none _ _ Hx _ Hin'). congruence.
Qed.

(** X14: the order of the cases of the classifier is immaterial: no
    identifier matches the prefixes of two cases, so scanning the same
    rules in any other order gives the result of
    [lookupByPrefixDetailed]. *)
Theorem X14_classifier_order_immaterial (st : state) (rules : list rule)
    (code : string) :
  Permutation rules (prefixRules st) ->
  Engine.lookupByPrefixDetailed st code = classifyWith rules code.
Proof.
  intros Hperm. rewrite lookupByPrefixDetailed_classify.
  unfold classify, classifyWith.
  rewrite (find_unique_Permutation (matches code) (prefixRules st) rules);
    [reflexivity| |exact Hperm].
  intros x y. apply rules_disjoint.
Qed.

(** *** White space around a token *)

Lemma trimFront_blank_app (p1 : ascii -> bool) (p2 : ascii -> ascii -> bool)
    (p3 : ascii -> ascii -> ascii -> bool) (pre l : list ascii) :
  forallb p1 pre = true ->
  trimFront p1 p2 p3 (pre ++ l)%list = trimFront p1 p2 p3 l.
Proof.
  induction pre as [|c pre IH]; [reflexivity|]. simpl.
  intros H. apply andb_true_iff in H as [Hc Hpre].
  rewrite Hc. apply IH, Hpre.
Qed.

Lemma trimRightSpace_app_blank (l post : list ascii) :
  forallb space1 post = true ->
  trimRightSpace (l ++ post)%list = trimRightSpace l.
Proof.
  intros H. unfold trimRightSpace. rewrite rev_app_distr.
  rewrite trimFront_blank_app; [reflexivity|].
  rewrite forallb_forall in *. intros c Hc. apply H, in_rev, Hc.
Qed.

(** White space bytes after a sequence complete no white space rune that
    the sequence leaves open. *)
Lemma starts_app_blank (s post : list ascii) :
  s <> [] -> forallb space1 post = true ->
  starts space1 space2 space3 s = false ->
  starts space1 space2 space3 (s ++ post)%list = false.
Proof.
  intros Hs Hpost.
  assert (Ha : forall x, In x post -> (N_of_ascii x < 128)%N).
  { intros x Hx. rewrite forallb_forall in Hpost.
    destruct (space1_ascii x (Hpost x Hx)) as [Hlt _].
    apply N.ltb_lt, Hlt. }
  destruct s as [|c [|d [|e s3]]]; [contradiction| | |]; simpl.
  - rewrite orb_false_r. intros ->. simpl.
    destruct post as [|x [|y post']]; [reflexivity| |].
    + destruct (space2_ascii x (Ha x (or_introl eq_refl)) c) as [_ ->].
      reflexivity.
    + destruct (space2_ascii x (Ha x (or_introl eq_refl)) c) as [_ ->].
      destruct (space3_ascii x (Ha x (or_introl eq_refl)) c y)
        as (_ & -> & _).
      reflexivity.
  - rewrite orb_false_r. intros H.
    apply orb_false_iff in H as [-> ->]. simpl.
    destruct post as [|x post']; [reflexivity|].
    destruct (space3_ascii x (Ha x (or_introl eq_refl)) c d)
      as (_ & _ & ->).
    reflexivity.
  - auto.
Qed.

Lemma trimLeftSpace_app_blank (s post : list ascii) :
  forallb space1 post = true ->
  trimLeftSpace (s ++ post)%list
  = match trimLeftSpace s with
    | [] => []
    | _ => (trimLeftSpace s ++ post)%list
    end.
Proof.
  intros Hpost. unfold trimLeftSpace.
  apply (trimFront_ind space1 space2 space3
           (fun s r => trimFront space1 space2 space3 (s ++ post)%list
                       = match r with
                         | [] => []
                         | _ => (r ++ post)%list
                         end)).
  - intros s0 Hlead. destruct s0 as [|c s1].
    + apply (trimLeftSpace_blank post Hpost).
    + apply trimFront_fixed, starts_app_blank;
        [discriminate|exact Hpost|exact Hlead].
  - intros c s0 r Hc IH. simpl. rewrite Hc. exact IH.
  - intros c d s0 r Hc Hcd IH. simpl. rewrite Hc, Hcd. exact IH.
  - intros c d e s0 r Hc Hcd Hcde IH. simpl. rewrite Hc, Hcd, Hcde.
    exact IH.
Qed.

Lemma trimSpace_bytes_padded (pre x post : list ascii) :
  forallb space1 pre = true -> forallb space1 post = true ->
  trimRightSpace (trimLeftSpace (pre ++ x ++ post)%list)
  = trimRightSpace (trimLeftSpace x).
Proof.
  intros Hpre Hpost. unfold trimLeftSpace at 1.
  rewrite trimFront_blank_app by exact Hpre.
  fold (trimLeftSpace (x ++ post)%list).
  rewrite trimLeftSpace_app_blank by exact Hpost.
  destruct (trimLeftSpace x) as [|c r] eqn:E; [reflexivity|].
  apply trimRightSpace_app_blank, Hpost.
Qed.

Lemma TrimSpace_padded (pre x post : string) :
  blank pre = true -> blank post = true ->
  TrimSpace (pre ++ x ++ post) = TrimSpace x.
Proof.
  unfold blank, TrimSpace. intros Hpre Hpost.
  rewrite !list_ascii_of_string_app, trimSpace_bytes_padded by assumption.
  reflexivity.
Qed.

Lemma string_of_list_ascii_app (a b : list ascii) :
  string_of_list_ascii (a ++ b)%list
  = string_of_list_ascii a ++ string_of_list_ascii b.
Proof.
  induction a as [|c a IH]; simpl; [reflexivity|]. rewrite IH. reflexivity.
Qed.

Lemma blank_isASCII (s : string) : blank s = true -> isASCII s = true.
Proof.
  unfold blank, isASCII. rewrite !forallb_forall. intros H c Hc.
  apply space1_ascii, H, Hc.
Qed.

Lemma blank_asciiLower (s : string) : blank s = true -> asciiLower s = s.
Proof.
  intros H. unfold asciiLower.
  rewrite <- (string_of_list_ascii_of_string s) at 2. f_equal.
  rewrite <- (map_id (list_ascii_of_string s)) at 2.
  apply map_ext_in. intros c Hc. apply space1_ascii.
  unfold blank in H. rewrite forallb_forall in H. apply H, Hc.
Qed.

Lemma isASCII_app (a b : string) :
  isASCII (a ++ b) = isASCII a && isASCII b.
Proof.
  unfold isASCII. rewrite list_ascii_of_string_app. apply forallb_app.
Qed.

Lemma asciiLower_app (a b : string) :
  asciiLower (a ++ b) = asciiLower a ++ asciiLower b.
Proof.
  unfold asciiLower.
  rewrite list_ascii_of_string_app, map_app. apply string_of_list_ascii_app.
Qed.

Lemma ToLower_ascii (unicodeLower : string -> string) (s : string) :
  isASCII s = true -> ToLower unicodeLower s = asciiLower s.
Proof. unfold ToLower. intros ->. reflexivity. Qed.

(** A token of ASCII bytes between ASCII white space normalizes like the
    token, and tokens that differ in the case of ASCII letters only
    normalize alike. *)
Lemma normalizePlatform_spelling (unicodeLower : string -> string)
    (pre p post q : string) :
  blank pre = true -> blank post = true ->
  isASCII p = true -> isASCII q = true ->
  asciiLower p = asciiLower q ->
  Engine.normalizePlatform unicodeLower (pre ++ p ++ post)
  = Engine.normalizePlatform unicodeLower q.
Proof.
  intros Hpre Hpost Hp Hq Hpq. unfold Engine.normalizePlatform.
  rewrite (ToLower_ascii _ q Hq), ToLower_ascii.
  - rewrite !asciiLower_app, (blank_asciiLower pre Hpre),
      (blank_asciiLower post Hpost), Hpq.
    apply TrimSpace_padded; assumption.
  - rewrite !isASCII_app, Hp, (blank_isASCII pre Hpre),
      (blank_isASCII post Hpost).
    reflexivity.
Qed.

Section EngineMore.

Variable unicodeLower : string -> string.
Variable embeddedData : string -> option Json.bytes.
Variable foldedField : string -> option metaField.

Local Abbreviation load := (loadAll embeddedData foldedField).
Local Abbreviation normalize := (Engine.normalizePlatform unicodeLower).
Local Abbreviation LookupDetailed :=
  (Engine.LookupDetailed embeddedData foldedField).
Local Abbreviation Lookup := (Engine.Lookup embeddedData foldedField).
Local Abbreviation LookupWithPlatform :=
  (Engine.LookupWithPlatform unicodeLower embeddedData foldedField).
Local Abbreviation DataVersion :=
  (Engine.DataVersion embeddedData foldedField).
Local Abbreviation reachable :=
  (Engine.reachable unicodeLower embeddedData foldedField).

Lemma normalize_tag (f : family) : normalize (familyTag f) = familyTag f.
Proof. destruct f; reflexivity. Qed.

(** The explicit-platform lookup with a platform that does not normalize
    to the empty string: the switch reads one table, or none. *)
Lemma LookupWithPlatform_explicit (platform code : string) (st : state) :
  normalize platform <> "" ->
  fst (LookupWithPlatform platform code st)
  = if String.eqb (TrimSpace code) "" then ""
    else match tagTable (normalize platform) (load st) with
         | Some m => index m (TrimSpace code)
         | None => ""
         end.
Proof.
  intros Hp. apply String.eqb_neq in Hp.
  unfold Engine.LookupWithPlatform, tagTable. cbv zeta. rewrite Hp.
  repeat match goal with
         | |- context [if ?b then _ else _] => destruct b
         end; reflexivity.
Qed.

Lemma LookupWithPlatform_auto (platform code : string) (st : state) :
  normalize platform = "" ->
  fst (LookupWithPlatform platform code st)
  = Name (Engine.lookupDetailedLoaded (load st) code).
Proof.
  intros Hp. unfold Engine.LookupWithPlatform. rewrite Hp. simpl.
  rewrite Lookup_eq.
  destruct (String.eqb_spec (TrimSpace code) "") as [He|_]; simpl.
  - rewrite lookupDetailedLoaded_blank by exact He. reflexivity.
  - rewrite loadAll_idemp, lookupDetailedLoaded_trimmed. reflexivity.
Qed.

Lemma tagTable_family (platform : string) (st : state)
    (m : gmap string string) :
  tagTable platform st = Some m -> exists f, table f st = m.
Proof.
  unfold tagTable.
  repeat match goal with
         | |- context [if ?b then _ else _] => destruct b
         end; intros H; inversion H; subst;
    [exists Phone|exists Phone|exists Desktop|exists SetTopBox
    |exists Wearable|exists Spatial]; reflexivity.
Qed.

(** Every name the detailed lookup gives is stored, under the trimmed
    identifier, in the table of one family. *)
Lemma lookupDetailedLoaded_stored (st : state) (code : string) :
  Name (Engine.lookupDetailedLoaded st code) = "" \/
  exists f, table f st !! TrimSpace code
            = Some (Name (Engine.lookupDetailedLoaded st code)).
Proof.
  unfold Engine.lookupDetailedLoaded, Engine.lookupByPrefixDetailed.
  cbv zeta.
  repeat match goal with
         | |- context [if negb (String.eqb ?x "") then _ else _] =>
             destruct (String.eqb_spec x ""); cbn [negb]
         | |- context [if ?b then _ else _] => destruct b
         end; cbn [Name noDetail] in *;
    try (left; reflexivity);
    right;
    first [ exists Phone; apply index_nonempty; assumption
          | exists Desktop; apply index_nonempty; assumption
          | exists SetTopBox; apply index_nonempty; assumption
          | exists Wearable; apply index_nonempty; assumption
          | exists Spatial; apply index_nonempty; assumption ].
Qed.

(** With tables that hold no empty name, the detailed lookup finds
    nothing exactly when the trimmed identifier is empty or is a key of no
    table. *)
Lemma lookupDetailedLoaded_none (st : state) (code : string) :
  tablesNonEmpty st ->
  Name (Engine.lookupDetailedLoaded st code) = "" <->
  TrimSpace code = "" \/ forall f, table f st !! TrimSpace code = None.
Proof.
  intros (Hios & Hmac & Htv & Hwatch & Hvision). split.
  - intros H.
    destruct (String.eqb_spec (TrimSpace code) "") as [He|Hne];
      [left; exact He|right].
    revert H. unfold Engine.lookupDetailedLoaded. cbv zeta.
    apply String.eqb_neq in Hne. rewrite Hne.
    destruct (String.eqb_spec
                (Name (Engine.lookupByPrefixDetailed st (TrimSpace code)))
                "") as [_|Hhit]; cbn [negb]; [|congruence].
    repeat match goal with
           | |- context [if negb (String.eqb ?x "") then _ else _] =>
               destruct (String.eqb_spec x ""); cbn [negb Name];
               [|congruence]
           end.
    intros _ f.
    destruct f; simpl; apply index_empty_iff; assumption.
  - intros [He|Hall]; [rewrite lookupDetailedLoaded_blank by exact He;
                       reflexivity|].
    pose proof (index_None _ _ (Hall Phone)) as H1.
    pose proof (index_None _ _ (Hall Desktop)) as H2.
    pose proof (index_None _ _ (Hall SetTopBox)) as H3.
    pose proof (index_None _ _ (Hall Wearable)) as H4.
    pose proof (index_None _ _ (Hall Spatial)) as H5.
    simpl in H1, H2, H3, H4, H5.
    unfold Engine.lookupDetailedLoaded, Engine.lookupByPrefixDetailed.
    cbv zeta. rewrite H1, H2, H3, H4, H5.
    repeat match goal with
           | |- context [if ?b then _ else _] => destruct b
           end; reflexivity.
Qed.

(** A match names one of the six tags, which normalizes to itself, and
    its name is what that tag's table holds for the trimmed identifier. *)
Lemma detail_hit_table (st : state) (code : string) :
  let detail := Engine.lookupDetailedLoaded st code in
  Name detail <> "" ->
  TrimSpace code <> "" /\
  recognized (Platform detail) = true /\
  normalize (Platform detail) = Platform detail /\
  exists m, tagTable (Platform detail) st = Some m /\
            index m (TrimSpace code) = Name detail.
Proof.
  unfold Engine.lookupDetailedLoaded, Engine.lookupByPrefixDetailed.
  cbv zeta.
  destruct (String.eqb_spec (TrimSpace code) "") as [He|Hne];
    [intros H; exfalso; apply H; reflexivity|].
  intros H. split; [exact Hne|]. revert H.
  repeat match goal with
         | |- context [if negb (String.eqb ?x "") then _ else _] =>
             destruct (String.eqb_spec x ""); cbn [negb]
         | |- context [if ?b then _ else _] => destruct b
         end; cbn [Name Platform noDetail]; intros H;
    try (exfalso; apply H; reflexivity);
    (split; [reflexivity|]; split; [reflexivity|];
     eexists; split; [reflexivity|reflexivity]).
Qed.

(** X1: an identifier that is empty once trimmed finds nothing, whatever
    the platform and whatever the tables hold (even an entry under the
    empty key): the detailed result is the empty one and the names are
    empty, in both copies of the package. *)
Theorem X1_blank_identifier_finds_nothing (platform code : string)
    (st : state) :
  TrimSpace code = "" ->
  fst (LookupDetailed code st) = noDetail /\
  fst (Lookup code st) = "" /\
  fst (LookupWithPlatform platform code st) = "" /\
  fst (Devicemodel.LookupWithPlatform unicodeLower embeddedData foldedField
         platform code st) = "" /\
  fst (Devicemodel.Lookup unicodeLower embeddedData foldedField code st)
  = "".
Proof.
  intros He.
  unfold Engine.Lookup, Engine.LookupDetailed, Engine.LookupWithPlatform,
    Devicemodel.Lookup, Devicemodel.LookupWithPlatform.
  cbv zeta. rewrite (lookupDetailedLoaded_blank _ _ He), He. simpl.
  repeat split; reflexivity.
Qed.

(** X2: white space around the identifier is ignored: trimming it before
    the call changes neither the result nor the state of any of the three
    lookups. *)
Theorem X2_lookups_ignore_surrounding_space (platform code : string)
    (st : state) :
  LookupDetailed (TrimSpace code) st = LookupDetailed code st /\
  Lookup (TrimSpace code) st = Lookup code st /\
  LookupWithPlatform platform (TrimSpace code) st
  = LookupWithPlatform platform code st.
Proof.
  split; [|split].
  - unfold Engine.LookupDetailed. cbv zeta.
    rewrite lookupDetailedLoaded_trimmed. reflexivity.
  - rewrite !Lookup_eq, lookupDetailedLoaded_trimmed. reflexivity.
  - unfold Engine.LookupWithPlatform. cbv zeta.
    rewrite TrimSpace_idemp. reflexivity.
Qed.

(** X3: the lookups invent no name: a non-empty result of [Lookup] or of
    [LookupWithPlatform] is the value stored under the trimmed identifier
    in the table of one of the five families. *)
Theorem X3_results_are_stored_names (platform code : string) (st : state) :
  (fst (Lookup code st) = "" \/
   exists f, table f (load st) !! TrimSpace code
             = Some (fst (Lookup code st))) /\
  (fst (LookupWithPlatform platform code st) = "" \/
   exists f, table f (load st) !! TrimSpace code
             = Some (fst (LookupWithPlatform platform code st))).
Proof.
  split.
  - rewrite Lookup_eq. cbn [fst]. apply lookupDetailedLoaded_stored.
  - destruct (String.eqb_spec (normalize platform) "") as [Hp|Hp].
    + rewrite (LookupWithPlatform_auto _ _ _ Hp).
      apply lookupDetailedLoaded_stored.
    + rewrite (LookupWithPlatform_explicit _ _ _ Hp).
      destruct (String.eqb (TrimSpace code) ""); [left; reflexivity|].
      destruct (tagTable (normalize platform) (load st)) as [m|] eqn:Hm;
        [|left; reflexivity].
      destruct (tagTable_family _ _ _ Hm) as [f <-].
      destruct (String.eqb_spec (index (table f (load st)) (TrimSpace code))
                  "") as [E|E]; [left; exact E|right].
      exists f. apply index_nonempty, E.
Qed.

(** X4: in every state the package can be in, [Lookup] returns the empty
    string exactly when the trimmed identifier is empty or is a key of
    none of the five loaded tables. *)
Theorem X4_auto_lookup_misses_iff_absent (code : string) (st : state) :
  reachable st ->
  fst (Lookup code st) = "" <->
  TrimSpace code = "" \/
  forall f, table f (load initial) !! TrimSpace code = None.
Proof.
  intros Hst. rewrite Lookup_eq. cbn [fst].
  rewrite (reachable_load _ _ _ st Hst).
  apply lookupDetailedLoaded_none, loadAll_initial_tables.
Qed.

(** X5: the platform of a match can be fed back: when [LookupDetailed]
    finds a name, its platform is one of the six tags and
    [LookupWithPlatform] under that platform returns the same name. *)
Theorem X5_detailed_platform_feeds_back (code : string) (st : state) :
  Name (fst (LookupDetailed code st)) <> "" ->
  recognized (Platform (fst (LookupDetailed code st))) = true /\
  fst (LookupWithPlatform (Platform (fst (LookupDetailed code st))) code st)
  = Name (fst (LookupDetailed code st)).
Proof.
  unfold Engine.LookupDetailed. cbn [fst]. intros H.
  destruct (detail_hit_table (load st) code H)
    as (Hcode & Hrec & Hnorm & m & Hm & Hidx).
  split; [exact Hrec|].
  assert (Hp : normalize
                 (Platform (Engine.lookupDetailedLoaded (load st) code))
               <> "").
  { rewrite Hnorm. intros E. rewrite E in Hrec. discriminate. }
  rewrite (LookupWithPlatform_explicit _ _ _ Hp), Hnorm, Hm.
  apply String.eqb_neq in Hcode. rewrite Hcode. exact Hidx.
Qed.

(** X6: what an explicit platform finds, the automatic lookup finds too
    (possibly under another family): in every state the package can be
    in, a non-empty [LookupWithPlatform] result means a non-empty [Lookup]
    result. *)
Theorem X6_explicit_hit_implies_auto_hit (platform code : string)
    (st : state) :
  reachable st ->
  fst (LookupWithPlatform platform code st) <> "" ->
  fst (Lookup code st) <> "".
Proof.
  intros Hst Hhit Hmiss. apply Hhit. clear Hhit.
  rewrite Lookup_eq in Hmiss. cbn [fst] in Hmiss.
  destruct (String.eqb_spec (normalize platform) "") as [Hp|Hp].
  { rewrite (LookupWithPlatform_auto _ _ _ Hp). exact Hmiss. }
  rewrite (LookupWithPlatform_explicit _ _ _ Hp).
  apply lookupDetailedLoaded_none in Hmiss;
    [|apply (reachable_tables _ _ _ st Hst)].
  destruct Hmiss as [He|Hall].
  { rewrite He. reflexivity. }
  destruct (String.eqb (TrimSpace code) ""); [reflexivity|].
  destruct (tagTable (normalize platform) (load st)) as [m|] eqn:Hm;
    [|reflexivity].
  destruct (tagTable_family _ _ _ Hm) as [f <-].
  apply index_None, Hall.
Qed.

(** X7: results do not depend on what was called before: in every state
    the package can be in, each exported function returns what it returns
    on a fresh process, and leaves the state of the one load. *)
Theorem X7_results_independent_of_history (platform code : string)
    (st : state) :
  reachable st ->
  Lookup code st = Lookup code initial /\
  LookupDetailed code st = LookupDetailed code initial /\
  LookupWithPlatform platform code st
  = LookupWithPlatform platform code initial /\
  DataVersion st = DataVersion initial /\
  snd (Lookup code st) = load initial.
Proof.
  intros Hst. pose proof (reachable_load _ _ _ st Hst) as E.
  rewrite !Lookup_eq.
  unfold Engine.LookupDetailed, Engine.DataVersion,
    Engine.LookupWithPlatform.
  cbv zeta. rewrite !Lookup_eq, E. repeat split; reflexivity.
Qed.

(** X8: the two copies of the package agree on every platform that does
    not normalize to the empty string; the older copy's [Lookup], and its
    [LookupWithPlatform] with such an empty platform, are the newer copy's
    lookup under the phone tag. *)
Theorem X8_older_copy_agrees (platform code : string) (st : state) :
  (normalize platform <> "" ->
   Devicemodel.LookupWithPlatform unicodeLower embeddedData foldedField
     platform code st
   = LookupWithPlatform platform code st) /\
  (normalize platform = "" ->
   Devicemodel.LookupWithPlatform unicodeLower embeddedData foldedField
     platform code st
   = LookupWithPlatform PlatformIOS code st) /\
  Devicemodel.Lookup unicodeLower embeddedData foldedField code st
  = LookupWithPlatform PlatformIOS code st.
Proof.
  unfold Devicemodel.Lookup, Devicemodel.LookupWithPlatform,
    Engine.LookupWithPlatform, Devicemodel.normalizePlatform.
  fold (normalize platform). fold (normalize PlatformIOS).
  rewrite (normalize_ios unicodeLower). cbv zeta.
  split; [|split].
  - intros Hp. apply String.eqb_neq in Hp. rewrite Hp. reflexivity.
  - intros ->. simpl. reflexivity.
  - simpl. reflexivity.
Qed.

(** X9: from the document to the lookup: an entry of a family's document
    whose key is a trimmed, non-empty string and whose value resolves to a
    name is returned, with that name, by [LookupWithPlatform] under the
    family's tag, and the automatic lookup finds the identifier too. *)
Theorem X9_document_entry_is_found (f : family) (b : Json.bytes)
    (raw : gmap string Json.value) (key name : string) (value : Json.value)
    (st : state) :
  reachable st ->
  embeddedData (documentPath f) = Some b ->
  Json.UnmarshalMap b = Some raw ->
  raw !! key = Some value ->
  resolvedName value = Some name ->
  TrimSpace key = key ->
  key <> "" ->
  fst (LookupWithPlatform (familyTag f) key st) = name /\
  fst (Lookup key st) <> "".
Proof.
  intros Hst Hb Hraw Hkey Hname Htrim Hne.
  assert (Htab : table f (load st) !! key = Some name).
  { rewrite (reachable_load _ _ _ st Hst), load_table.
    rewrite (readDeviceMap_decoded _ _ b raw Hb Hraw), collect_lookup, Hkey.
    exact Hname. }
  split.
  - assert (Hp : normalize (familyTag f) <> "")
      by (rewrite normalize_tag; destruct f; discriminate).
    rewrite (LookupWithPlatform_explicit _ _ _ Hp), normalize_tag, Htrim.
    apply String.eqb_neq in Hne. rewrite Hne, tagTable_familyTag.
    apply index_Some, Htab.
  - rewrite Lookup_eq. cbn [fst]. intros Hmiss.
    apply lookupDetailedLoaded_none in Hmiss;
      [|apply (reachable_tables _ _ _ st Hst)].
    rewrite Htrim in Hmiss. destruct Hmiss as [He|Hall];
      [contradiction|].
    rewrite Hall in Htab. discriminate.
Qed.

(** X10: every name the lookups return is trimmed: in every state the
    package can be in, the results of [Lookup] and [LookupWithPlatform]
    carry no white space at either end. *)
Theorem X10_returned_names_are_trimmed (platform code : string)
    (st : state) :
  reachable st ->
  TrimSpace (fst (Lookup code st)) = fst (Lookup code st) /\
  TrimSpace (fst (LookupWithPlatform platform code st))
  = fst (LookupWithPlatform platform code st).
Proof.
  intros Hst.
  assert (Hstored : forall name,
             name = "" \/
             (exists f, table f (load st) !! TrimSpace code = Some name) ->
             TrimSpace name = name).
  { intros name [->|[f Hf]]; [reflexivity|].
    rewrite (reachable_load _ _ _ st Hst), load_table in Hf.
    apply (readDeviceMap_trimmed _ _ _ _ Hf). }
  split.
  - apply Hstored. rewrite Lookup_eq. cbn [fst].
    apply lookupDetailedLoaded_stored.
  - apply Hstored.
    destruct (String.eqb_spec (normalize platform) "") as [Hp|Hp].
    + rewrite (LookupWithPlatform_auto _ _ _ Hp).
      apply lookupDetailedLoaded_stored.
    + rewrite (LookupWithPlatform_explicit _ _ _ Hp).
      destruct (String.eqb (TrimSpace code) ""); [left; reflexivity|].
      destruct (tagTable (normalize platform) (load st)) as [m|] eqn:Hm;
        [|left; reflexivity].
      destruct (tagTable_family _ _ _ Hm) as [f <-].
      destruct (String.eqb_spec (index (table f (load st)) (TrimSpace code))
                  "") as [E|E]; [left; exact E|right].
      exists f. apply index_nonempty, E.
Qed.

(** X11: the reference string of [DataVersion] is never blank: it always
    holds the separator [" sha:"], so it is not empty once trimmed, in
    every state and whatever the metadata document was. *)
Theorem X11_version_ref_never_blank (st : state) :
  TrimSpace (snd (fst (fst (DataVersion st)))) <> "".
Proof.
  unfold Engine.DataVersion. cbn [fst snd].
  set (ref := UpstreamRef (meta (load st)) ++ " sha:"
              ++ UpstreamSHA (meta (load st))).
  intros Hblank.
  assert (Hin : In "s"%char (list_ascii_of_string (TrimSpace ref))).
  { apply TrimSpace_keeps; [reflexivity|reflexivity|].
    unfold ref. rewrite list_ascii_of_string_app. apply in_or_app. right.
    simpl. auto. }
  rewrite Hblank in Hin. exact Hin.
Qed.

(** X12: [DataVersion] reports, for each field of the metadata, the
    string of the last member of the document's object that names the
    field and carries a string; members with [null] or a value of another
    type change nothing, and a field no member sets is empty. *)
Theorem X12_version_reports_last_strings
    (members : list (string * Json.value)) (st : state) :
  reachable st ->
  embeddedData metadataPath = Some (Json.JSON (Json.Object members)) ->
  let stored f :=
    default "" (lastStored (fieldOfKey foldedField) f members) in
  fst (DataVersion st)
  = (stored FRepo, stored FRef ++ " sha:" ++ stored FSHA, stored FSyncedAt).
Proof.
  intros Hst Hdoc stored. unfold Engine.DataVersion. cbn [fst].
  rewrite (reachable_load _ _ _ st Hst). cbn [loadAll loadOnce initial meta].
  unfold readUpstreamMeta. fold metadataPath. rewrite Hdoc.
  cbn [UnmarshalMeta].
  pose proof (foldl_storeMember foldedField FRepo members (zeroMeta, false))
    as H1.
  pose proof (foldl_storeMember foldedField FRef members (zeroMeta, false))
    as H2.
  pose proof (foldl_storeMember foldedField FSHA members (zeroMeta, false))
    as H3.
  pose proof (foldl_storeMember foldedField FSyncedAt members
                (zeroMeta, false)) as H4.
  cbn [getField fst zeroMeta UpstreamRepo UpstreamRef UpstreamSHA
         SyncedAtUTC] in H1, H2, H3, H4.
  rewrite H1, H2, H3, H4. reflexivity.
Qed.

(** X15: the platform is matched without regard to the case of ASCII
    letters and to ASCII white space around it: a token of ASCII bytes
    between white space gives the result of any token that differs from
    it in letter case only. *)
Theorem X15_platform_spelling_immaterial (pre p post q code : string)
    (st : state) :
  blank pre = true -> blank post = true ->
  isASCII p = true -> isASCII q = true ->
  asciiLower p = asciiLower q ->
  LookupWithPlatform (pre ++ p ++ post) code st
  = LookupWithPlatform q code st.
Proof.
  intros Hpre Hpost Hp Hq Hpq. unfold Engine.LookupWithPlatform.
  rewrite (normalizePlatform_spelling unicodeLower pre p post q);
    auto.
Qed.

(** X17: what the older copy's [Lookup] resolves, the newer [Lookup]
    resolves too, and to the same name when the trimmed identifier starts
    with [iPhone], [iPod] or [iPad] or with no classifier prefix at all. *)
Theorem X17_newer_lookup_extends_older (code : string) (st : state) :
  reachable st ->
  fst (Devicemodel.Lookup unicodeLower embeddedData foldedField code st)
  <> "" ->
  fst (Lookup code st) <> "" /\
  (HasPrefix (TrimSpace code) "iPhone" || HasPrefix (TrimSpace code) "iPod"
   || HasPrefix (TrimSpace code) "iPad" || unprefixed (TrimSpace code)
   = true ->
   fst (Lookup code st)
   = fst (Devicemodel.Lookup unicodeLower embeddedData foldedField
            code st)).
Proof.
  intros Hst.
  unfold Devicemodel.Lookup, Devicemodel.LookupWithPlatform,
    Devicemodel.normalizePlatform.
  fold (normalize PlatformIOS). rewrite (normalize_ios unicodeLower).
  cbv zeta. cbn [String.eqb PlatformIOS Ascii.eqb Bool.eqb].
  rewrite Lookup_eq. cbn [fst].
  destruct (String.eqb_spec (TrimSpace code) "") as [He|Hne]; cbn [fst];
    [congruence|].
  intros Hold. split.
  - intros Hmiss.
    apply lookupDetailedLoaded_none in Hmiss;
      [|apply (reachable_tables _ _ _ st Hst)].
    destruct Hmiss as [He|Hall]; [contradiction|].
    apply Hold, index_None, (Hall Phone).
  - intros Hshape.
    unfold Engine.lookupDetailedLoaded. cbv zeta.
    apply String.eqb_neq in Hne. rewrite Hne.
    apply String.eqb_neq in Hold.
    destruct (unprefixed (TrimSpace code)) eqn:Hun.
    + rewrite (unprefixed_classifier _ _ Hun). simpl.
      rewrite Hold. reflexivity.
    + rewrite orb_false_r in Hshape.
      unfold Engine.lookupByPrefixDetailed.
      destruct (HasPrefix (TrimSpace code) "iPhone"
                || HasPrefix (TrimSpace code) "iPod") eqn:Hphone.
      * simpl. rewrite Hold. reflexivity.
      * simpl in Hshape. rewrite Hshape. simpl. rewrite Hold. reflexivity.
Qed.

End EngineMore.

(** X16: an explicit lookup under a family's tag depends on that family's
    document alone: with any other embedded files that have the same
    document for the family, a fresh process returns the same name. *)
Theorem X16_explicit_lookup_reads_one_document
    (unicodeLower : string -> string)
    (embeddedData other : string -> option Json.bytes)
    (foldedField otherFold : string -> option metaField)
    (f : family) (code : string) :
  other (documentPath f) = embeddedData (documentPath f) ->
  fst (Engine.LookupWithPlatform unicodeLower other otherFold
         (familyTag f) code initial)
  = fst (Engine.LookupWithPlatform unicodeLower embeddedData foldedField
           (familyTag f) code initial).
Proof.
  intros Hdoc.
  assert (Hp : Engine.normalizePlatform unicodeLower (familyTag f) <> "")
    by (rewrite normalize_tag; destruct f; discriminate).
  rewrite (LookupWithPlatform_explicit unicodeLower embeddedData foldedField
             _ _ _ Hp).
  rewrite (LookupWithPlatform_explicit unicodeLower other otherFold
             _ _ _ Hp).
  rewrite normalize_tag, !tagTable_familyTag, !load_table.
  rewrite (readDeviceMap_local embeddedData other _ Hdoc). reflexivity.
Qed.

Section LoaderMore.

Variable embeddedData : string -> option Json.bytes.
Variable foldedField : string -> option metaField.

(** X13: when a family's document names a key more than once, its last
    member alone decides: the table holds the name that member resolves
    to, and no entry when it resolves to none, whatever the earlier
    members were. *)
Theorem X13_last_duplicate_key_decides (path : string)
    (members : list (string * Json.value)) (key : string) :
  embeddedData path = Some (Json.JSON (Json.Object members)) ->
  forallb (fun kv => Json.numbersFit (snd kv)) members = true ->
  readDeviceMap embeddedData path !! key
  = lastMember key members ≫= resolvedName.
Proof.
  intros H Hfit. unfold readDeviceMap. rewrite H. simpl. rewrite Hfit.
  rewrite collect_lookup, foldl_insert_lookup, lookup_empty.
  destruct (lastMember key members); reflexivity.
Qed.

End LoaderMore.

(** ** The further properties at concrete inputs *)

Lemma afterOneCall_reachable :
  Engine.reachable noUnicode sampleData noFolding afterOneCall.
Proof. apply Engine.reach_Lookup, Engine.reach_initial. Qed.

Lemma X1_witness :
  TrimSpace "  " = "" /\
  fst (Engine.LookupDetailed emptyKeyData noFolding "  " initial)
  = noDetail /\
  fst (Engine.Lookup emptyKeyData noFolding "  " initial) = "" /\
  fst (Engine.LookupWithPlatform noUnicode emptyKeyData noFolding
         "ios" "  " initial) = "" /\
  fst (Devicemodel.LookupWithPlatform noUnicode emptyKeyData noFolding
         "ios" "  " initial) = "" /\
  fst (Devicemodel.Lookup noUnicode emptyKeyData noFolding "  " initial)
  = "".
Proof.
  split; [reflexivity|].
  apply (X1_blank_identifier_finds_nothing noUnicode emptyKeyData
           noFolding "ios" "  " initial).
  reflexivity.
Defined.

Lemma X4_witness :
  Engine.reachable noUnicode sampleData noFolding afterOneCall /\
  (fst (Engine.Lookup sampleData noFolding "Unknown,0" afterOneCall) = ""
   <->
   TrimSpace "Unknown,0" = "" \/
   forall f, table f (loadAll sampleData noFolding initial)
             !! TrimSpace "Unknown,0" = None).
Proof.
  split; [apply afterOneCall_reachable|].
  apply (X4_auto_lookup_misses_iff_absent noUnicode sampleData noFolding
           "Unknown,0" afterOneCall).
  apply afterOneCall_reachable.
Defined.

Lemma X5_witness :
  Name (fst (Engine.LookupDetailed sampleData noFolding "iPad16,3" initial))
  <> "" /\
  recognized
    (Platform
       (fst (Engine.LookupDetailed sampleData noFolding "iPad16,3"
               initial))) = true /\
  fst (Engine.LookupWithPlatform noUnicode sampleData noFolding
         (Platform
            (fst (Engine.LookupDetailed sampleData noFolding "iPad16,3"
                    initial)))
         "iPad16,3" initial)
  = Name (fst (Engine.LookupDetailed sampleData noFolding "iPad16,3"
                 initial)).
Proof.
  assert (H : Name (fst (Engine.LookupDetailed sampleData noFolding
                           "iPad16,3" initial)) <> "")
    by (vm_compute; discriminate).
  split; [exact H|].
  apply (X5_detailed_platform_feeds_back noUnicode sampleData noFolding
           "iPad16,3" initial H).
Defined.

Lemma X6_witness :
  Engine.reachable noUnicode sampleData noFolding initial /\
  fst (Engine.LookupWithPlatform noUnicode sampleData noFolding
         "tvos" "AppleTV14,1" initial) <> "" /\
  fst (Engine.Lookup sampleData noFolding "AppleTV14,1" initial) <> "".
Proof.
  assert (H : fst (Engine.LookupWithPlatform noUnicode sampleData noFolding
                     "tvos" "AppleTV14,1" initial) <> "")
    by (vm_compute; discriminate).
  split; [apply Engine.reach_initial|]. split; [exact H|].
  apply (X6_explicit_hit_implies_auto_hit noUnicode sampleData noFolding
           "tvos" "AppleTV14,1" initial (Engine.reach_initial _ _ _) H).
Defined.

Lemma X7_witness :
  Engine.reachable noUnicode sampleData noFolding afterOneCall /\
  Engine.Lookup sampleData noFolding "iMac11,2" afterOneCall
  = Engine.Lookup sampleData noFolding "iMac11,2" initial /\
  Engine.LookupDetailed sampleData noFolding "iMac11,2" afterOneCall
  = Engine.LookupDetailed sampleData noFolding "iMac11,2" initial /\
  Engine.LookupWithPlatform noUnicode sampleData noFolding
    "macos" "iMac11,2" afterOneCall
  = Engine.LookupWithPlatform noUnicode sampleData noFolding
      "macos" "iMac11,2" initial /\
  Engine.DataVersion sampleData noFolding afterOneCall
  = Engine.DataVersion sampleData noFolding initial /\
  snd (Engine.Lookup sampleData noFolding "iMac11,2" afterOneCall)
  = loadAll sampleData noFolding initial.
Proof.
  split; [apply afterOneCall_reachable|].
  apply (X7_results_independent_of_history noUnicode sampleData noFolding
           "macos" "iMac11,2" afterOneCall).
  apply afterOneCall_reachable.
Defined.

Lemma X8_witness :
  Devicemodel.LookupWithPlatform noUnicode sampleData noFolding
    "tvos" "AppleTV14,1" initial
  = Engine.LookupWithPlatform noUnicode sampleData noFolding
      "tvos" "AppleTV14,1" initial /\
  Devicemodel.LookupWithPlatform noUnicode sampleData noFolding
    " " "Watch1,1" initial
  = Engine.LookupWithPlatform noUnicode sampleData noFolding
      PlatformIOS "Watch1,1" initial.
Proof.
  split.
  - destruct (X8_older_copy_agrees noUnicode sampleData noFolding
                "tvos" "AppleTV14,1" initial) as (Hsame & _ & _).
    apply Hsame. vm_compute. discriminate.
  - destruct (X8_older_copy_agrees noUnicode sampleData noFolding
                " " "Watch1,1" initial) as (_ & Hphone & _).
    apply Hphone. reflexivity.
Defined.

Lemma X9_witness :
  fst (Engine.LookupWithPlatform noUnicode sampleData noFolding
         (familyTag Desktop) "MacBookPro18,3" initial)
  = "MacBook Pro (14-inch, 2021)" /\
  fst (Engine.Lookup sampleData noFolding "MacBookPro18,3" initial) <> "".
Proof.
  apply (X9_document_entry_is_found noUnicode sampleData noFolding Desktop
           macDocument macRaw "MacBookPro18,3" "MacBook Pro (14-inch, 2021)"
           (Json.Array [ Json.Str " "; Json.Number (Some 0%N);
                         Json.Str "MacBook Pro (14-inch, 2021) ";
                         Json.Str "MacBook Pro" ])
           initial).
  - apply Engine.reach_initial.
  - reflexivity.
  - reflexivity.
  - vm_compute. reflexivity.
  - reflexivity.
  - reflexivity.
  - discriminate.
Defined.

Lemma X10_witness :
  Engine.reachable noUnicode sampleData noFolding initial /\
  TrimSpace (fst (Engine.Lookup sampleData noFolding "MacBookPro18,3"
                    initial))
  = fst (Engine.Lookup sampleData noFolding "MacBookPro18,3" initial) /\
  TrimSpace (fst (Engine.LookupWithPlatform noUnicode sampleData noFolding
                    "macos" "MacBookPro18,3" initial))
  = fst (Engine.LookupWithPlatform noUnicode sampleData noFolding
           "macos" "MacBookPro18,3" initial).
Proof.
  split; [apply Engine.reach_initial|].
  apply (X10_returned_names_are_trimmed noUnicode sampleData noFolding
           "macos" "MacBookPro18,3" initial).
  apply Engine.reach_initial.
Defined.

Lemma X12_witness :
  Engine.reachable noUnicode repeatedKeyData noFolding initial /\
  repeatedKeyData metadataPath
  = Some (Json.JSON (Json.Object repeatedMetaMembers)) /\
  fst (Engine.DataVersion repeatedKeyData noFolding initial)
  = ("", "v2 sha:", "").
Proof.
  split; [apply Engine.reach_initial|]. split; [reflexivity|].
  apply (X12_version_reports_last_strings noUnicode repeatedKeyData
           noFolding repeatedMetaMembers initial).
  - apply Engine.reach_initial.
  - reflexivity.
Defined.

Lemma X13_witness :
  repeatedKeyData "data/ios-device-identifiers.json"
  = Some (Json.JSON (Json.Object repeatedKeyMembers)) /\
  forallb (fun kv => Json.numbersFit (snd kv)) repeatedKeyMembers = true /\
  readDeviceMap repeatedKeyData "data/ios-device-identifiers.json"
    !! "iPhone1,1"
  = lastMember "iPhone1,1" repeatedKeyMembers ≫= resolvedName /\
  lastMember "iPhone1,1" repeatedKeyMembers ≫= resolvedName = None.
Proof.
  split; [reflexivity|]. split; [reflexivity|]. split; [|reflexivity].
  apply (X13_last_duplicate_key_decides repeatedKeyData
           "data/ios-device-identifiers.json" repeatedKeyMembers
           "iPhone1,1"); reflexivity.
Defined.

Lemma X14_witness :
  Permutation (rev (prefixRules initial)) (prefixRules initial) /\
  Engine.lookupByPrefixDetailed initial "iMac11,2"
  = classifyWith (rev (prefixRules initial)) "iMac11,2".
Proof.
  assert (H : Permutation (rev (prefixRules initial)) (prefixRules initial))
    by apply Permutation_sym, Permutation_rev.
  split; [exact H|].
  apply (X14_classifier_order_immaterial initial
           (rev (prefixRules initial)) "iMac11,2" H).
Defined.

Lemma X15_witness :
  blank " " = true /\ blank lineFeed = true /\
  isASCII "MacOS" = true /\ isASCII "macos" = true /\
  asciiLower "MacOS" = asciiLower "macos" /\
  Engine.LookupWithPlatform noUnicode sampleData noFolding
    (" " ++ "MacOS" ++ lineFeed) "iMac11,2" initial
  = Engine.LookupWithPlatform noUnicode sampleData noFolding
      "macos" "iMac11,2" initial.
Proof.
  repeat (split; [reflexivity|]).
  apply (X15_platform_spelling_immaterial noUnicode sampleData noFolding
           " " "MacOS" lineFeed "macos" "iMac11,2" initial);
    reflexivity.
Defined.

Lemma X16_witness :
  damagedData (documentPath Phone) = sampleData (documentPath Phone) /\
  fst (Engine.LookupWithPlatform noUnicode damagedData noFolding
         (familyTag Phone) "iPhone18,1" initial)
  = fst (Engine.LookupWithPlatform noUnicode sampleData noFolding
           (familyTag Phone) "iPhone18,1" initial).
Proof.
  split; [reflexivity|].
  apply (X16_explicit_lookup_reads_one_document noUnicode sampleData
           damagedData noFolding noFolding Phone "iPhone18,1").
  reflexivity.
Defined.

Lemma X17_witness :
  Engine.reachable noUnicode sampleData noFolding initial /\
  fst (Devicemodel.Lookup noUnicode sampleData noFolding "iPad16,3" initial)
  <> "" /\
  fst (Engine.Lookup sampleData noFolding "iPad16,3" initial) <> "" /\
  fst (Engine.Lookup sampleData noFolding "iPad16,3" initial)
  = fst (Devicemodel.Lookup noUnicode sampleData noFolding "iPad16,3"
           initial).
Proof.
  assert (H : fst (Devicemodel.Lookup noUnicode sampleData noFolding
                     "iPad16,3" initial) <> "")
    by (vm_compute; discriminate).
  split; [apply Engine.reach_initial|]. split; [exact H|].
  destruct (X17_newer_lookup_extends_older noUnicode sampleData noFolding
              "iPad16,3" initial (Engine.reach_initial _ _ _) H)
    as [Hhit Hsame].
  split; [exact Hhit|]. apply Hsame. reflexivity.
Defined.
